(** * The camera pipeline worker and its watchdog (src/worker.py)

    A shallow embedding of [WorkerManager] and [Worker].  The two classes
    are Python threads that share the manager's two flags; the device SDK
    (depthai / depthai_sdk / cv2), the logger and the reconfigure callback
    are external.  The embedding keeps

    - the objects as records ([WorkerManager], [Worker]);
    - every method as a computation in a small state-and-exception monad
      [M], with Python's [try/except/finally] and [with] as combinators;
    - every external call as an entry of a trace, answered by an
      environment [Env] that says which calls raise, which frames the
      queues hold, which packets a poll delivers and when another thread
      calls [stop()];
    - the three [while] loops as fuelled fixpoints: running out of fuel
      is the third outcome [Diverge], "the loop is still going";
      [Worker_run_returns] shows that the fuel is enough once [stop()]
      has been called.

    What the module does not own is not modelled beyond its interface:
    an external call returns or raises, it does not block for ever. *)

From Stdlib Require Import ZArith List String Bool Arith Lia.
From Stdlib Require QArith_base.
Import ListNotations.

Local Open Scope string_scope.
Local Open Scope list_scope.

(** ** Constants of the module *)

Definition RGB_STREAM_NAME : string := "rgb".
Definition DEPTH_STREAM_NAME : string := "depth".
Definition RIGHT_STREAM_NAME : string := "right".
Definition LEFT_STREAM_NAME : string := "left".

(** ** Values *)

(** Python's [float], only ever handed on to the SDK. *)
Definition float : Type := QArith_base.Q.

(** What Python can raise: an instance of [Exception], the class the
    worker catches, or an instance of [BaseException] that is not one
    ([KeyboardInterrupt], [SystemExit], [GeneratorExit]). *)
Inductive exn : Type :=
| Exception (msg : string)
| BaseException (msg : string).

(** [isinstance(e, Exception)] *)
Definition is_Exception (e : exn) : bool :=
  match e with
  | Exception _ => true
  | BaseException _ => false
  end.

(** An SDK object is known by the clock value of the call that made it. *)
Definition handle : Type := nat.

Inductive ColorConversionCode : Type :=
| COLOR_BGR2RGB.

(** Arrays are kept symbolic: the SDK's pixel arithmetic is not part of
    the program, which only decides what is applied to which frame. *)
Inductive ndarray : Type :=
| np_array_empty                                           (* np.array([]) *)
| CvFrame (stream : string) (seq : nat)                    (* ImgFrame.getCvFrame() *)
| cvtColor (src : ndarray) (code : ColorConversionCode)    (* cv2.cvtColor *)
| resize (src : ndarray) (dsize : Z * Z)                   (* cv2.resize *)
| points (packet : nat).                                   (* PointcloudPacket.points *)

Inductive node_kind : Type :=
| XLinkOut
| MonoCamera.

(** The calls the module makes on code it does not own. *)
Inductive sdk_call : Type :=
| OakCamera_enter
| OakCamera_exit (oak : handle)
| pipeline_create (k : node_kind)
| setStreamName (node : handle) (name : string)
| oak_camera (source : string) (fps : float)
| setPreviewSize (cam : handle) (w h : Z)
| preview_link (cam xout : handle)
| oak_stereo (fps : float) (left right : handle)
| config_stereo (stereo : handle) (align : option handle)
| depth_link (stereo xout : handle)
| create_pointcloud (stereo colorize : option handle)
| oak_callback (pcl : handle)
| oak_start (blocking : bool)
| getOutputQueue (name : string) (maxSize : option Z) (blocking : option bool)
| tryGet (queue : handle)
| getCvFrame (stream : string) (seq : nat)
| cv2_cvtColor (src : ndarray) (code : ColorConversionCode)
| cv2_resize (src : ndarray) (dsize : Z * Z)
| oak_poll
| reconfigure_callback.

Inductive level : Type := DEBUG | INFO | ERROR.

Inductive message : Type :=
| text (s : string)
| failure_count (failures : nat) (e : exn)     (* "Pipeline failure count: .." *)
| exceeded_max_failures (e : exn).             (* "Exceeded max failures .." *)

Inductive event : Type :=
| ev_log (l : level) (m : message)
| ev_call (at_clock : nat) (c : sdk_call)
| ev_raise (e : exn)
| ev_sleep (seconds : Z)
| ev_thread_start (name : string).

(** ** The two objects *)

Record WorkerManager : Type := mkWorkerManager {
  needs_reconfigure : bool;
  running : bool;
  manager_started : bool          (* Thread: start() has been called *)
}.

Record Worker : Type := mkWorker {
  height : Z;
  width : Z;
  frame_rate : float;
  should_get_color : bool;
  should_get_depth : bool;
  color_image : ndarray;
  depth_map : ndarray;
  pcd : ndarray;
  manager : WorkerManager;
  worker_started : bool           (* Thread: start() has been called *)
}.

(** ** State, environment, monad *)

(** [trace] has the newest event first. *)
Record St : Type := mkSt {
  self : Worker;
  clock : nat;
  trace : list event
}.

(** What the outside does, by the clock value at which it is asked. *)
Record Env : Type := mkEnv {
  fault : nat -> option exn;              (* the call made at this instant raises *)
  queue_src : string -> nat -> option nat; (* tryGet: a frame, or None *)
  poll_src : nat -> list nat;             (* packets a poll hands to the callback *)
  stop_req : nat -> bool                  (* another thread has called stop() *)
}.

Inductive outcome (A : Type) : Type :=
| Return (a : A)
| Raise (e : exn)
| Diverge.

Arguments Return {A} a.
Arguments Raise {A} e.
Arguments Diverge {A}.

Definition M (A : Type) : Type := St -> outcome A * St.

Definition ret {A : Type} (a : A) : M A := fun st => (Return a, st).

Definition bind {A B : Type} (m : M A) (k : A -> M B) : M B :=
  fun st =>
    match m st with
    | (Return a, st') => k a st'
    | (Raise e, st') => (Raise e, st')
    | (Diverge, st') => (Diverge, st')
    end.

Declare Scope py_scope.
Delimit Scope py_scope with py.
Notation "x <- m ;; k" := (bind m (fun x => k))
  (at level 61, m at next level, right associativity) : py_scope.
Notation "m ;; k" := (bind m (fun _ => k))
  (at level 61, right associativity) : py_scope.
Local Open Scope py_scope.

Definition diverge {A : Type} : M A := fun st => (Diverge, st).

(** [try: m  except Exception as e: h e]; what is not an [Exception]
    passes through. *)
Definition try_except {A : Type} (m : M A) (h : exn -> M A) : M A :=
  fun st =>
    match m st with
    | (Raise e, st') => if is_Exception e then h e st' else (Raise e, st')
    | r => r
    end.

(** [try: m  finally: f]; an exception of [f] replaces the pending one. *)
Definition finally {A : Type} (m : M A) (f : M unit) : M A :=
  fun st =>
    match m st with
    | (Diverge, st') => (Diverge, st')
    | (r, st') =>
        match f st' with
        | (Return _, st'') => (r, st'')
        | (Raise e, st'') => (Raise e, st'')
        | (Diverge, st'') => (Diverge, st'')
        end
    end.

(** External code raises [e]: the raise is written to the trace. *)
Definition throw {A : Type} (e : exn) : M A :=
  fun st => (Raise e, mkSt (self st) (clock st) (ev_raise e :: trace st)).

Definition emit (ev : event) : M unit :=
  fun st => (Return tt, mkSt (self st) (clock st) (ev :: trace st)).

Definition log (l : level) (s : string) : M unit := emit (ev_log l (text s)).

Definition get_self : M Worker := fun st => (Return (self st), st).

(** An assignment to attributes of [self]. *)
Definition modify_self (f : Worker -> Worker) : M unit :=
  fun st => (Return tt, mkSt (f (self st)) (clock st) (trace st)).

(** One instant passes; the result is the instant that has passed. *)
Definition tick : M nat :=
  fun st => (Return (clock st), mkSt (self st) (S (clock st)) (trace st)).

Definition set_manager (m : WorkerManager) (w : Worker) : Worker :=
  mkWorker (height w) (width w) (frame_rate w) (should_get_color w)
           (should_get_depth w) (color_image w) (depth_map w) (pcd w)
           m (worker_started w).

Definition set_color_image (arr : ndarray) (w : Worker) : Worker :=
  mkWorker (height w) (width w) (frame_rate w) (should_get_color w)
           (should_get_depth w) arr (depth_map w) (pcd w)
           (manager w) (worker_started w).

Definition set_depth_map (arr : ndarray) (w : Worker) : Worker :=
  mkWorker (height w) (width w) (frame_rate w) (should_get_color w)
           (should_get_depth w) (color_image w) arr (pcd w)
           (manager w) (worker_started w).

Definition set_pcd (arr : ndarray) (w : Worker) : Worker :=
  mkWorker (height w) (width w) (frame_rate w) (should_get_color w)
           (should_get_depth w) (color_image w) (depth_map w) arr
           (manager w) (worker_started w).

(** ** Construction *)

(** [WorkerManager.__init__] *)
Definition WorkerManager_init : WorkerManager :=
  mkWorkerManager false true false.

(** [Thread.start()] on the manager: from here on its [run] executes. *)
Definition manager_start : M unit :=
  modify_self (fun w =>
    set_manager (mkWorkerManager (needs_reconfigure (manager w))
                                 (running (manager w)) true) w) ;;
  emit (ev_thread_start "WorkerManager").

(** [Worker.__init__]: the object it builds and what building it did. *)
Definition Worker_init (height width : Z) (frame_rate : float)
           (should_get_color should_get_depth : bool) : St :=
  let w := mkWorker height width frame_rate should_get_color should_get_depth
                    np_array_empty np_array_empty np_array_empty
                    WorkerManager_init false in
  snd ((log INFO "Initializing camera pipeline worker." ;; manager_start)
         (mkSt w 0 [])).

(** [Thread.start()] on the worker, inherited. *)
Definition Worker_start : M unit :=
  modify_self (fun w =>
    mkWorker (height w) (width w) (frame_rate w) (should_get_color w)
             (should_get_depth w) (color_image w) (depth_map w) (pcd w)
             (manager w) true) ;;
  emit (ev_thread_start "Worker").

(** ** Readers *)

Definition get_color_image : M ndarray :=
  fun st => (Return (color_image (self st)), st).

Definition get_depth_map : M ndarray :=
  fun st => (Return (depth_map (self st)), st).

Definition get_pcd : M ndarray :=
  fun st => (Return (pcd (self st)), st).

(** ** Writers *)

Definition _set_current_image (arr : ndarray) : M unit :=
  log DEBUG "Setting current_image." ;;
  modify_self (set_color_image arr).

Definition _set_current_depth_map (arr : ndarray) : M unit :=
  log DEBUG "Setting current depth map." ;;
  modify_self (set_depth_map arr).

Definition _set_current_pcd (packet : nat) : M unit :=
  log DEBUG "Setting current pcd." ;;
  modify_self (set_pcd (points packet)).

Section Program.

Variable env : Env.

(** One call on external code: it takes one instant of the clock, is
    written to the trace, and raises when the environment says so.  The
    instant is the identity of whatever the call creates. *)
Definition extcall (c : sdk_call) : M handle :=
  fun st =>
    let now := clock st in
    let tr := ev_call now c :: trace st in
    match fault env now with
    | Some e => (Raise e, mkSt (self st) (S now) (ev_raise e :: tr))
    | None => (Return now, mkSt (self st) (S now) tr)
    end.

(** *** WorkerManager *)

Definition WorkerManager_stop : M unit :=
  log DEBUG "Stopping worker manager." ;;
  modify_self (fun w =>
    set_manager (mkWorkerManager (needs_reconfigure (manager w)) false
                                 (manager_started (manager w))) w).

(** Reading [self.manager.running].  The flag is shared: a [stop()] that
    another thread has issued by now takes effect before the read. *)
Definition read_running : M bool :=
  now <- tick ;;
  (if stop_req env now then WorkerManager_stop else ret tt) ;;
  w <- get_self ;;
  ret (running (manager w)).

(** The body of [while self.running]. *)
Definition WorkerManager_run_body : M unit :=
  log DEBUG "Checking if worker must be reconfigured." ;;
  w <- get_self ;;
  (if needs_reconfigure (manager w)
   then log DEBUG "Worker needs reconfiguring; reconfiguring worker." ;;
        _ <- extcall reconfigure_callback ;;
        ret tt
   else ret tt) ;;
  emit (ev_sleep 5).

Fixpoint WorkerManager_loop (fuel : nat) : M unit :=
  match fuel with
  | O => diverge
  | S fuel' =>
      r <- read_running ;;
      if r then WorkerManager_run_body ;; WorkerManager_loop fuel'
      else ret tt
  end.

Definition WorkerManager_run (fuel : nat) : M unit :=
  log DEBUG "Starting worker manager." ;;
  WorkerManager_loop fuel.

(** *** Worker: building the pipeline *)

Definition _add_camera_rgb_node (oak : handle) : M (option handle) :=
  w <- get_self ;;
  if should_get_color w then
    log DEBUG "Creating pipeline node: color camera." ;;
    xout_color <- extcall (pipeline_create XLinkOut) ;;
    _ <- extcall (setStreamName xout_color RGB_STREAM_NAME) ;;
    color <- extcall (oak_camera "color" (frame_rate w)) ;;
    _ <- extcall (setPreviewSize color (width w) (height w)) ;;
    _ <- extcall (preview_link color xout_color) ;;
    ret (Some color)
  else ret None.

Definition _add_depth_node (oak : handle) (color : option handle)
  : M (option handle) :=
  w <- get_self ;;
  if should_get_depth w then
    log DEBUG "Creating pipeline node: stereo depth." ;;
    mono_right <- extcall (pipeline_create MonoCamera) ;;
    mono_left <- extcall (pipeline_create MonoCamera) ;;
    depth_out <- extcall (pipeline_create XLinkOut) ;;
    _ <- extcall (setStreamName depth_out DEPTH_STREAM_NAME) ;;
    xout_right <- extcall (pipeline_create XLinkOut) ;;
    _ <- extcall (setStreamName xout_right RIGHT_STREAM_NAME) ;;
    xout_left <- extcall (pipeline_create XLinkOut) ;;
    _ <- extcall (setStreamName xout_left LEFT_STREAM_NAME) ;;
    stereo <- extcall (oak_stereo (frame_rate w) mono_left mono_right) ;;
    (if should_get_color w then
       _ <- extcall (config_stereo stereo color) ;; ret tt
     else ret tt) ;;
    _ <- extcall (depth_link stereo depth_out) ;;
    ret (Some stereo)
  else ret None.

Definition _add_pc_node (oak : handle) (color stereo : option handle)
  : M (option handle) :=
  w <- get_self ;;
  if should_get_depth w then
    pcl <- extcall (create_pointcloud stereo color) ;;
    _ <- extcall (oak_callback pcl) ;;
    ret (Some pcl)
  else ret None.

(** *** Worker: draining the outputs *)

Definition _handle_color_output (oak : handle) : M unit :=
  w <- get_self ;;
  if should_get_color w then
    rgb_queue <- extcall (getOutputQueue RGB_STREAM_NAME None None) ;;
    asked <- extcall (tryGet rgb_queue) ;;
    match queue_src env RGB_STREAM_NAME asked with
    | Some rgb_frame_data =>
        _ <- extcall (getCvFrame RGB_STREAM_NAME rgb_frame_data) ;;
        let bgr_frame := CvFrame RGB_STREAM_NAME rgb_frame_data in
        _ <- extcall (cv2_cvtColor bgr_frame COLOR_BGR2RGB) ;;
        let rgb_frame := cvtColor bgr_frame COLOR_BGR2RGB in
        _set_current_image rgb_frame
    | None => ret tt
    end
  else ret tt.

Definition _handle_depth_output (oak : handle) : M unit :=
  w <- get_self ;;
  if should_get_depth w then
    q_depth <- extcall (getOutputQueue DEPTH_STREAM_NAME (Some 4%Z) (Some false)) ;;
    asked <- extcall (tryGet q_depth) ;;
    match queue_src env DEPTH_STREAM_NAME asked with
    | Some depth_frame =>
        _ <- extcall (getCvFrame DEPTH_STREAM_NAME depth_frame) ;;
        let np_depth_arr := CvFrame DEPTH_STREAM_NAME depth_frame in
        _ <- extcall (cv2_resize np_depth_arr (width w, height w)) ;;
        let np_depth_arr := resize np_depth_arr (width w, height w) in
        _set_current_depth_map np_depth_arr
    | None => ret tt
    end
  else ret tt.

(** The packets a poll delivers go to the callback registered by
    [_add_pc_node], which is [_set_current_pcd]. *)
Fixpoint deliver (packets : list nat) : M unit :=
  match packets with
  | [] => ret tt
  | p :: rest => _set_current_pcd p ;; deliver rest
  end.

(** [oak.poll()]: while it runs the SDK hands the packets that have
    arrived to the callback; after that it returns, or it raises. *)
Definition poll (oak : handle) : M unit :=
  now <- tick ;;
  emit (ev_call now oak_poll) ;;
  deliver (poll_src env now) ;;
  match fault env now with
  | Some e => throw e
  | None => ret tt
  end.

Definition _handle_pcd_output (oak : handle) : M unit :=
  w <- get_self ;;
  if should_get_depth w then poll oak
  else ret tt.

(** [while self.manager.running: ...] inside the session. *)
Fixpoint drain (iters : nat) (oak : handle) : M unit :=
  match iters with
  | O => diverge
  | S iters' =>
      r <- read_running ;;
      if r then
        _handle_color_output oak ;;
        _handle_depth_output oak ;;
        _handle_pcd_output oak ;;
        drain iters' oak
      else ret tt
  end.

(** [with OakCamera() as oak: body]; [__exit__] does not swallow. *)
Definition with_OakCamera {A : Type} (body : handle -> M A) : M A :=
  oak <- extcall OakCamera_enter ;;
  finally (body oak) (_ <- extcall (OakCamera_exit oak) ;; ret tt).

Definition set_needs_reconfigure (b : bool) : M unit :=
  modify_self (fun w =>
    set_manager (mkWorkerManager b (running (manager w))
                                 (manager_started (manager w))) w).

(** The [try] block of [_pipeline_loop]. *)
Definition _pipeline_loop_try (iters : nat) : M unit :=
  log DEBUG "Initializing worker image pipeline." ;;
  with_OakCamera (fun oak =>
    color <- _add_camera_rgb_node oak ;;
    stereo <- _add_depth_node oak color ;;
    _ <- _add_pc_node oak color stereo ;;
    _ <- extcall (oak_start false) ;;
    drain iters oak).

(** Its [except Exception as e] block, entered with the local [failures]. *)
Definition _pipeline_loop_except (failures : nat) (e : exn) : M nat :=
  let failures := (failures + 1)%nat in
  (if (3 <? failures)%nat then
     set_needs_reconfigure true ;;
     emit (ev_log ERROR (exceeded_max_failures e))
   else
     emit (ev_log DEBUG (failure_count failures e))) ;;
  ret failures.

(** [_pipeline_loop].  Python returns None; the embedding hands back the
    last value of the local [failures], which the code only shows in its
    log line. *)
Definition _pipeline_loop (iters : nat) : M nat :=
  let failures := 0%nat in
  finally
    (try_except
       (_pipeline_loop_try iters ;; ret failures)
       (fun e => _pipeline_loop_except failures e))
    (log DEBUG "Exiting worker camera loop.").

Fixpoint Worker_run_loop (sessions iters : nat) : M unit :=
  match sessions with
  | O => diverge
  | S sessions' =>
      r <- read_running ;;
      if r then _ <- _pipeline_loop iters ;; Worker_run_loop sessions' iters
      else ret tt
  end.

(** [Worker.run]: [sessions] bounds the outer loop, [iters] each inner one. *)
Definition Worker_run (sessions iters : nat) : M unit :=
  finally (Worker_run_loop sessions iters)
          (log INFO "Stopped and exited worker thread.").

Definition Worker_stop : M unit :=
  log INFO "Stopping worker." ;;
  WorkerManager_stop.

End Program.

(** ** Reading a trace *)

Definition is_call (p : sdk_call -> bool) (ev : event) : bool :=
  match ev with
  | ev_call _ c => p c
  | _ => false
  end.

Definition is_reconfigure (c : sdk_call) : bool :=
  match c with reconfigure_callback => true | _ => false end.

Definition is_session_open (c : sdk_call) : bool :=
  match c with OakCamera_enter => true | _ => false end.

Definition is_create_pointcloud (c : sdk_call) : bool :=
  match c with create_pointcloud _ _ => true | _ => false end.

Definition is_start (c : sdk_call) : bool :=
  match c with oak_start _ => true | _ => false end.

Definition is_raise (ev : event) : bool :=
  match ev with ev_raise _ => true | _ => false end.

Definition is_sleep (ev : event) : bool :=
  match ev with ev_sleep _ => true | _ => false end.

(** How often the reconfigure callback was invoked. *)
Definition reconfigure_calls (tr : list event) : nat :=
  List.length (filter (is_call is_reconfigure) tr).

(** How often a device session was opened, i.e. a (re)build attempted. *)
Definition session_opens (tr : list event) : nat :=
  List.length (filter (is_call is_session_open) tr).

(** Was [oak.start] reached? *)
Definition started (tr : list event) : bool := existsb (is_call is_start) tr.

(** Did any external call raise? *)
Definition raised (tr : list event) : bool := existsb is_raise tr.

(** The values of [failures] the worker logged, newest first. *)
Fixpoint logged_failures (tr : list event) : list nat :=
  match tr with
  | [] => []
  | ev_log _ (failure_count n _) :: rest => n :: logged_failures rest
  | ev_log _ (exceeded_max_failures _) :: rest => logged_failures rest
  | _ :: rest => logged_failures rest
  end.

(** How many pipeline failures the worker handled. *)
Fixpoint failures_handled (tr : list event) : nat :=
  match tr with
  | [] => 0
  | ev_log _ (failure_count _ _) :: rest => S (failures_handled rest)
  | ev_log _ (exceeded_max_failures _) :: rest => S (failures_handled rest)
  | _ :: rest => failures_handled rest
  end.

(** The external calls of a trace, oldest first, with their instants. *)
Fixpoint calls_newest_first (tr : list event) : list (nat * sdk_call) :=
  match tr with
  | [] => []
  | ev_call n c :: rest => (n, c) :: calls_newest_first rest
  | _ :: rest => calls_newest_first rest
  end.

Definition calls (tr : list event) : list (nat * sdk_call) :=
  rev (calls_newest_first tr).

(** ** What a session asks of the SDK before it drains

    The calls of a build that reaches [oak.start], in the order made, for
    a session opened at instant [c]. *)

(** Depth without colour. *)
Definition depth_only_build (fr : float) (c : nat) : list (nat * sdk_call) :=
  [ (c, OakCamera_enter);
    (1 + c, pipeline_create MonoCamera);
    (2 + c, pipeline_create MonoCamera);
    (3 + c, pipeline_create XLinkOut);
    (4 + c, setStreamName (3 + c) DEPTH_STREAM_NAME);
    (5 + c, pipeline_create XLinkOut);
    (6 + c, setStreamName (5 + c) RIGHT_STREAM_NAME);
    (7 + c, pipeline_create XLinkOut);
    (8 + c, setStreamName (7 + c) LEFT_STREAM_NAME);
    (9 + c, oak_stereo fr (2 + c) (1 + c));
    (10 + c, depth_link (9 + c) (3 + c));
    (11 + c, create_pointcloud (Some (9 + c)) None);
    (12 + c, oak_callback (11 + c));
    (13 + c, oak_start false) ].

(** Colour and depth. *)
Definition color_depth_build (h wd : Z) (fr : float) (c : nat)
  : list (nat * sdk_call) :=
  [ (c, OakCamera_enter);
    (1 + c, pipeline_create XLinkOut);
    (2 + c, setStreamName (1 + c) RGB_STREAM_NAME);
    (3 + c, oak_camera "color" fr);
    (4 + c, setPreviewSize (3 + c) wd h);
    (5 + c, preview_link (3 + c) (1 + c));
    (6 + c, pipeline_create MonoCamera);
    (7 + c, pipeline_create MonoCamera);
    (8 + c, pipeline_create XLinkOut);
    (9 + c, setStreamName (8 + c) DEPTH_STREAM_NAME);
    (10 + c, pipeline_create XLinkOut);
    (11 + c, setStreamName (10 + c) RIGHT_STREAM_NAME);
    (12 + c, pipeline_create XLinkOut);
    (13 + c, setStreamName (12 + c) LEFT_STREAM_NAME);
    (14 + c, oak_stereo fr (7 + c) (6 + c));
    (15 + c, config_stereo (14 + c) (Some (3 + c)));
    (16 + c, depth_link (14 + c) (8 + c));
    (17 + c, create_pointcloud (Some (14 + c)) (Some (3 + c)));
    (18 + c, oak_callback (17 + c));
    (19 + c, oak_start false) ].

(** One of the [n] external calls made from instant [c] on is made to
    raise by the environment. *)
Definition build_fault (env : Env) (c n : nat) : Prop :=
  exists k, (k < n)%nat /\ fault env (k + c) <> None.

(** A depth-only session: the one point-cloud node it may create sits on
    the stereo node and has no colour source; its first fourteen calls
    are the build above, unless a call has raised before [oak.start] was
    reached, and then it is one of those fourteen calls that the
    environment made raise.  So a session in which nothing raises has
    built the node, so has one that fails only later, and a session on a
    device that answers the fourteen calls always builds it. *)
Definition depth_only_session (env : Env) (fr : float) (c : nat)
           (tr : list event) : Prop :=
  (filter (is_call is_create_pointcloud) tr = [] \/
   filter (is_call is_create_pointcloud) tr
   = [ev_call (11 + c) (create_pointcloud (Some (9 + c)) None)])
  /\ (if started tr || negb (raised tr)
      then firstn 14 (calls tr) = depth_only_build fr c
      else build_fault env c 14).

(** A colour-and-depth session: its first twenty calls are the build
    above, unless a call has raised before [oak.start] was reached, and
    then it is one of those twenty calls that the environment made
    raise. *)
Definition color_depth_session (env : Env) (h wd : Z) (fr : float) (c : nat)
           (tr : list event) : Prop :=
  if started tr || negb (raised tr)
  then firstn 20 (calls tr) = color_depth_build h wd fr c
  else build_fault env c 20.

(** ** Environments used in the examples *)

(** Every external call raises: the device cannot be reached. *)
Definition unreachable_device : Env :=
  mkEnv (fun _ => Some (Exception "device unreachable"))
        (fun _ _ => None) (fun _ => []) (fun _ => false).

(** ** A program logic for [M] *)

(** [triple P m Q]: from a state in [P], [m] ends in an outcome and a
    state related by [Q]. *)
Definition triple {A : Type} (P : St -> Prop) (m : M A)
           (Q : outcome A -> St -> Prop) : Prop :=
  forall st, P st -> Q (fst (m st)) (snd (m st)).

(** The postcondition that does not look at the value: [I] after a return
    or while still looping, [E] after a raise. *)
Definition post {A : Type} (I E : St -> Prop) : outcome A -> St -> Prop :=
  fun r st => match r with Raise _ => E st | _ => I st end.

Definition keeps {A : Type} (I E : St -> Prop) (m : M A) : Prop :=
  triple I m (post I E).

(** [m] never leaves a loop running. *)
Definition halts {A : Type} (m : M A) : Prop :=
  forall st, fst (m st) <> Diverge.

Definition push (ev : event) (st : St) : St :=
  mkSt (self st) (clock st) (ev :: trace st).

Definition later (st : St) : St :=
  mkSt (self st) (S (clock st)) (trace st).

Definition with_self (f : Worker -> Worker) (st : St) : St :=
  mkSt (f (self st)) (clock st) (trace st).

(** ** Invariants *)

Definition flag_is (b : bool) (st : St) : Prop :=
  needs_reconfigure (manager (self st)) = b.

Definition counts_are_one (st : St) : Prop :=
  Forall (fun n => n = 1) (logged_failures (trace st)).



(** Colour is off and the colour slot holds [arr]. *)
Definition color_off_with (arr : ndarray) (st : St) : Prop :=
  should_get_color (self st) = false /\ color_image (self st) = arr.

(** The trace is [tr0] followed by events that create no point cloud. *)
Definition extends (tr0 : list event) (st : St) : Prop :=
  exists new, trace st = new ++ tr0 /\
              filter (is_call is_create_pointcloud) new = [].

(** The clock has reached [k]. *)
Definition at_least (k : nat) (st : St) : Prop := k <= clock st.

(** From instant [n] on, [stop()] has been called. *)
Definition stopped_from (env : Env) (n : nat) : Prop :=
  forall c, n <= c -> stop_req env c = true.

(** [m] raises nothing but what [p] allows. *)
Definition raises_only {A : Type} (p : exn -> Prop) (m : M A) : Prop :=
  forall st, match fst (m st) with Raise e => p e | _ => True end.

(** [e] is what some external call raises. *)
Definition from_env (env : Env) (e : exn) : Prop :=
  exists k, fault env k = Some e.

(** [e] comes from an external call and is not an [Exception]. *)
Definition passes_through (env : Env) (e : exn) : Prop :=
  is_Exception e = false /\ from_env env e.

(** ** Starting points and histories *)

(** A worker object at some instant, with nothing observed yet. *)
Definition boot (w : Worker) (c : nat) : St := mkSt w c [].

(** What the drain loop can do to the frame store. *)
Inductive store_op : Type :=
| store_color (arr : ndarray)
| store_depth (arr : ndarray)
| store_pcd (packet : nat).

Definition apply_store (op : store_op) : M unit :=
  match op with
  | store_color arr => _set_current_image arr
  | store_depth arr => _set_current_depth_map arr
  | store_pcd packet => _set_current_pcd packet
  end.

Fixpoint apply_stores (ops : list store_op) : M unit :=
  match ops with
  | [] => ret tt
  | op :: rest => apply_store op ;; apply_stores rest
  end.

(** The frame a slot holds after a history of writes, oldest first. *)
Fixpoint latest_color (ops : list store_op) (current : ndarray) : ndarray :=
  match ops with
  | [] => current
  | store_color arr :: rest => latest_color rest arr
  | _ :: rest => latest_color rest current
  end.

Fixpoint latest_depth (ops : list store_op) (current : ndarray) : ndarray :=
  match ops with
  | [] => current
  | store_depth arr :: rest => latest_depth rest arr
  | _ :: rest => latest_depth rest current
  end.

Fixpoint latest_pcd (ops : list store_op) (current : ndarray) : ndarray :=
  match ops with
  | [] => current
  | store_pcd packet :: rest => latest_pcd rest (points packet)
  | _ :: rest => latest_pcd rest current
  end.

(** A freshly built 640x480 worker at 30 frames a second. *)
Definition fresh_worker (color depth : bool) : St :=
  Worker_init 480 640 (QArith_base.Qmake 30 1) color depth.

(** The same worker once something has set the reconfigure flag. *)
Definition flagged_worker (color depth : bool) : St :=
  with_self (set_manager (mkWorkerManager true true true))
            (fresh_worker color depth).

(** Nothing fails; frames and packets arrive at every request; another
    thread calls [stop()] at instant [n]. *)
Definition stops_at (n : nat) : Env :=
  mkEnv (fun _ => None) (fun _ c => Some c) (fun c => [c])
        (fun c => Nat.leb n c).


(** Only the call made at instant 1 raises. *)
Definition fails_at_one : Env :=
  mkEnv (fun c => if Nat.eqb c 1 then Some (Exception "reconfigure failed")
                  else None)
        (fun _ _ => None) (fun _ => []) (fun _ => false).

(** ** More readings of a trace *)

Definition is_session_close (c : sdk_call) : bool :=
  match c with OakCamera_exit _ => true | _ => false end.

(** How often a device session was closed. *)
Definition session_closes (tr : list event) : nat :=
  List.length (filter (is_call is_session_close) tr).

(** How often the watchdog slept. *)
Definition sleeps (tr : list event) : nat :=
  List.length (filter is_sleep tr).

(** What a session may still do once a call has raised: log, close the
    device, and see that close raise. *)
Definition closes_only (ev : event) : bool :=
  match ev with
  | ev_log _ _ => true
  | ev_call _ (OakCamera_exit _) => true
  | ev_raise _ => true
  | _ => false
  end.

(** Every event that follows a raise is one of those. *)
Fixpoint fails_fast (tr : list event) : bool :=
  match tr with
  | [] => true
  | ev :: rest =>
      (if raised rest then closes_only ev else true) && fails_fast rest
  end.


(** The calls that only a depth pipeline makes. *)
Definition depth_event (ev : event) : bool :=
  match ev with
  | ev_call _ (pipeline_create MonoCamera) => true
  | ev_call _ (oak_stereo _ _ _) => true
  | ev_call _ (config_stereo _ _) => true
  | ev_call _ (depth_link _ _) => true
  | ev_call _ (create_pointcloud _ _) => true
  | ev_call _ (oak_callback _) => true
  | ev_call _ (cv2_resize _ _) => true
  | ev_call _ oak_poll => true
  | _ => false
  end.

(** What [with OakCamera() as oak] encloses in [_pipeline_loop]. *)
Definition session_body (env : Env) (iters : nat) (oak : handle) : M unit :=
  color <- _add_camera_rgb_node env oak ;;
  stereo <- _add_depth_node env oak color ;;
  _ <- _add_pc_node env oak color stereo ;;
  _ <- extcall env (oak_start false) ;;
  drain env iters oak.

(** ** More invariants *)

(** The settings a worker is built with, and the two thread marks. *)
Definition same_settings (w : Worker) (st : St) : Prop :=
  height (self st) = height w /\
  width (self st) = width w /\
  frame_rate (self st) = frame_rate w /\
  should_get_color (self st) = should_get_color w /\
  should_get_depth (self st) = should_get_depth w /\
  worker_started (self st) = worker_started w /\
  manager_started (manager (self st)) = manager_started (manager w).

(** [stop()] has taken effect. *)
Definition is_stopped (st : St) : Prop :=
  running (manager (self st)) = false.

(** So many sessions opened, so many closed. *)
Definition session_counts (opened closed : nat) (st : St) : Prop :=
  session_opens (trace st) = opened /\ session_closes (trace st) = closed.

(** The callback has not been called. *)
Definition never_called_back (st : St) : Prop :=
  reconfigure_calls (trace st) = 0.

(** Nothing has raised. *)
Definition unraised (st : St) : Prop := raised (trace st) = false.

(** Something has raised, and only closing followed. *)
Definition failed_fast (st : St) : Prop :=
  raised (trace st) = true /\ fails_fast (trace st) = true.

(** Depth is off, the two depth slots hold [dm] and [pc], and no call of
    a depth pipeline has been made. *)
Definition depth_off_with (dm pc : ndarray) (st : St) : Prop :=
  should_get_depth (self st) = false /\
  depth_map (self st) = dm /\ pcd (self st) = pc /\
  existsb depth_event (trace st) = false.


(** Nothing fails, nothing arrives, nobody stops. *)
Definition calm : Env :=
  mkEnv (fun _ => None) (fun _ _ => None) (fun _ => []) (fun _ => false).

(** Colour without depth: the calls of a build that reaches [oak.start],
    for a session opened at instant [c]. *)
Definition color_only_build (h wd : Z) (fr : float) (c : nat)
  : list (nat * sdk_call) :=
  [ (c, OakCamera_enter);
    (1 + c, pipeline_create XLinkOut);
    (2 + c, setStreamName (1 + c) RGB_STREAM_NAME);
    (3 + c, oak_camera "color" fr);
    (4 + c, setPreviewSize (3 + c) wd h);
    (5 + c, preview_link (3 + c) (1 + c));
    (6 + c, oak_start false) ].

(** A colour-only session: once it has reached [oak.start], its first
    seven calls are the build above. *)
Definition color_only_session (h wd : Z) (fr : float) (c : nat)
           (tr : list event) : Prop :=
  if started tr then firstn 7 (calls tr) = color_only_build h wd fr c
  else True.

(** * The sensor (src/ip_sensor.py)

    [IPSensor] reads one attribute, [cmd], from its configuration and
    reports what that shell command prints.  The configuration is a
    protobuf [Struct]; the accessors of its values, the conversions
    [int], [list] and [dict], the subprocess and the UTF-8 decoder are
    not the sensor's code: they are the fields of [Protobuf] and
    [Runtime], about which nothing is assumed. *)

Record Protobuf : Type := mkProtobuf {
  Value : Type;
  Number : Type;
  ListValue : Type;
  Struct : Type;
  PyList : Type;
  PyDict : Type;
  bool_value : Value -> bool;
  number_value : Value -> Number;
  string_value : Value -> string;
  list_value : Value -> ListValue;
  struct_value : Value -> Struct;
  int_ : Number -> outcome Z;             (* int(x) *)
  list_ : ListValue -> outcome PyList;    (* list(x) *)
  dict_ : Struct -> outcome PyDict        (* dict(x) *)
}.

(** The types [get_attribute_from_config] compares with, and any other. *)
Inductive py_type : Type :=
| t_bool | t_int | t_float | t_str | t_list | t_dict
| t_other (name : string).

Definition py_type_eqb (a b : py_type) : bool :=
  match a, b with
  | t_bool, t_bool | t_int, t_int | t_float, t_float
  | t_str, t_str | t_list, t_list | t_dict, t_dict => true
  | t_other m, t_other n => String.eqb m n
  | _, _ => false
  end.

(** The Python values that pass through the sensor. *)
Inductive py_value (P : Protobuf) : Type :=
| py_None
| py_bool (b : bool)
| py_int (z : Z)
| py_float (x : Number P)
| py_str (s : string)
| py_list (l : PyList P)
| py_dict (d : PyDict P)
| py_object (type_name : string).        (* an object of any other type *)

Arguments py_None {P}.
Arguments py_bool {P} b.
Arguments py_int {P} z.
Arguments py_float {P} x.
Arguments py_str {P} s.
Arguments py_list {P} l.
Arguments py_dict {P} d.
Arguments py_object {P} type_name.

(** [type(v)] *)
Definition type_ {P : Protobuf} (v : py_value P) : py_type :=
  match v with
  | py_None => t_other "NoneType"
  | py_bool _ => t_bool
  | py_int _ => t_int
  | py_float _ => t_float
  | py_str _ => t_str
  | py_list _ => t_list
  | py_dict _ => t_dict
  | py_object n => t_other n
  end.

(** [ComponentConfig], as far as the sensor reads it: [config.name] and
    the map [config.attributes.fields]. *)
Record ComponentConfig (P : Protobuf) : Type := mkComponentConfig {
  config_name : string;
  fields : string -> option (Value P)
}.

Arguments config_name {P} _.
Arguments fields {P} _.

(** Sequencing of results outside the worker's monad. *)
Definition and_then {A B : Type} (r : outcome A) (k : A -> outcome B)
  : outcome B :=
  match r with
  | Return a => k a
  | Raise e => Raise e
  | Diverge => Diverge
  end.

(** The function nested in [reconfigure].  [of_type] is [None] when the
    argument is left at its default. *)
Definition get_attribute_from_config {P : Protobuf} (config : ComponentConfig P)
           (attribute_name : string) (default : py_value P)
           (of_type : option py_type) : outcome (py_value P) :=
  match fields config attribute_name with
  | None => Return default
  | Some field =>
      and_then
        (match default with
         | py_None =>
             match of_type with
             | None =>
                 Raise (Exception
                   "If default value is None, of_type argument can't be empty")
             | Some t => Return t
             end
         | _ => Return (type_ default)
         end)
        (fun type_default =>
           if py_type_eqb type_default t_bool then
             Return (py_bool (bool_value P field))
           else if py_type_eqb type_default t_int then
             and_then (int_ P (number_value P field))
                      (fun z => Return (py_int z))
           else if py_type_eqb type_default t_float then
             Return (py_float (number_value P field))
           else if py_type_eqb type_default t_str then
             Return (py_str (string_value P field))
           else if py_type_eqb type_default t_list then
             and_then (list_ P (list_value P field))
                      (fun l => Return (py_list l))
           else if py_type_eqb type_default t_dict then
             and_then (dict_ P (struct_value P field))
                      (fun d => Return (py_dict d))
           else Return py_None)
  end.

(** The sensor object: its name, and [cmd] once it has been assigned. *)
Record IPSensor (P : Protobuf) : Type := mkIPSensor {
  name : string;
  cmd : option (py_value P)
}.

Arguments name {P} _.
Arguments cmd {P} _.

(** [IPSensor.validate] *)
Definition validate {P : Protobuf} (config : ComponentConfig P)
  : outcome unit :=
  Return tt.

(** [IPSensor.reconfigure] *)
Definition reconfigure {P : Protobuf} (self : IPSensor P)
           (config : ComponentConfig P) : outcome (IPSensor P) :=
  and_then (get_attribute_from_config config "cmd" py_None (Some t_str))
           (fun v => Return (mkIPSensor P (name self) (Some v))).

(** [IPSensor.new] *)
Definition new {P : Protobuf} (config : ComponentConfig P)
  : outcome (IPSensor P) :=
  let service := mkIPSensor P (config_name config) None in
  and_then (validate config) (fun _ => reconfigure service config).

(** What [get_readings] asks of the interpreter and the system. *)
Record Runtime (P : Protobuf) : Type := mkRuntime {
  (* subprocess.run(cmd, stdout=subprocess.PIPE, shell=True).stdout *)
  subprocess_run : py_value P -> outcome (list Byte.byte);
  (* bytes.decode('utf-8') *)
  decode_utf8 : list Byte.byte -> outcome string;
  (* str(v) for a value that is neither None, a bool nor a str *)
  str_other : py_value P -> string
}.

Arguments subprocess_run {P} _.
Arguments decode_utf8 {P} _.
Arguments str_other {P} _.

(** ["{}".format(v)] *)
Definition format_ {P : Protobuf} (rt : Runtime P) (v : py_value P) : string :=
  match v with
  | py_None => "None"
  | py_bool true => "True"
  | py_bool false => "False"
  | py_str s => s
  | _ => str_other rt v
  end.

Definition is_newline (a : Ascii.ascii) : bool :=
  Ascii.eqb a (Ascii.ascii_of_nat 10).

(** [s.lstrip("\n")] *)
Fixpoint lstrip (s : string) : string :=
  match s with
  | EmptyString => EmptyString
  | String a rest => if is_newline a then lstrip rest else s
  end.

(** [s.rstrip("\n")] *)
Fixpoint rstrip (s : string) : string :=
  match s with
  | EmptyString => EmptyString
  | String a rest =>
      match rstrip rest with
      | EmptyString => if is_newline a then EmptyString else String a EmptyString
      | kept => String a kept
      end
  end.

(** [s.strip("\n")] *)
Definition strip (s : string) : string := rstrip (lstrip s).

(** [IPSensor.get_readings]; the mapping it returns has one entry. *)
Definition get_readings {P : Protobuf} (rt : Runtime P) (self : IPSensor P)
  : outcome (list (string * string)) :=
  match cmd self with
  | None => Raise (Exception "'IPSensor' object has no attribute 'cmd'")
  | Some c =>
      and_then (subprocess_run rt c) (fun stdout =>
      and_then (decode_utf8 rt stdout) (fun text =>
      let output := strip text in
      Return [(String.append (format_ rt c) ": ", output)]))
  end.

(** A string of newlines only. *)
Fixpoint newlines_only (s : string) : bool :=
  match s with
  | EmptyString => true
  | String a rest => is_newline a && newlines_only rest
  end.

(** The first and the last character of a string, if any. *)
Definition first_char (s : string) : option Ascii.ascii :=
  match s with
  | EmptyString => None
  | String a _ => Some a
  end.

Fixpoint last_char (s : string) : option Ascii.ascii :=
  match s with
  | EmptyString => None
  | String a EmptyString => Some a
  | String _ rest => last_char rest
  end.

Definition is_newline_char (o : option Ascii.ascii) : bool :=
  match o with
  | Some a => is_newline a
  | None => false
  end.

(** A configuration world for the examples: a value is a string, every
    accessor but [string_value] gives its empty answer. *)
Definition text_values : Protobuf :=
  mkProtobuf string Z unit unit unit unit
             (fun _ => false) (fun _ => 0%Z) (fun s => s)
             (fun _ => tt) (fun _ => tt)
             (fun z => Return z) (fun l => Return l) (fun d => Return d).

(** A configuration with [cmd] set to a command. *)
Definition hostname_config : ComponentConfig text_values :=
  mkComponentConfig text_values "ip"
    (fun k => if String.eqb k "cmd" then Some "hostname -I" else None).

(** A runtime for the examples: a command given as a string prints
    "10.0.0.7" and a newline, anything else is refused with a TypeError,
    as [subprocess.run(None, shell=True)] is; the decoder reads bytes as
    characters. *)
Definition sample_runtime : Runtime text_values :=
  mkRuntime text_values
    (fun c =>
       match c with
       | py_str _ =>
           Return (list_byte_of_string
                     (String.append "10.0.0.7"
                        (String (Ascii.ascii_of_nat 10) EmptyString)))
       | _ => Raise (Exception "TypeError")
       end)
    (fun stdout => Return (string_of_list_byte stdout))
    (fun _ => "object").

(** * Proofs *)

Section Logic.

Context {A B : Type}.

Lemma triple_bind (P : St -> Prop) (m : M A) (k : A -> M B)
      (R : outcome A -> St -> Prop) (Q : outcome B -> St -> Prop) :
  triple P m R ->
  (forall a, triple (R (Return a)) (k a) Q) ->
  (forall e st, R (Raise e) st -> Q (Raise e) st) ->
  (forall st, R Diverge st -> Q Diverge st) ->
  triple P (bind m k) Q.
Proof.
  intros Hm Hk He Hd st HP. specialize (Hm st HP).
  unfold bind. destruct (m st) as [[a | e |] st']; simpl in *.
  - apply Hk, Hm.
  - apply He, Hm.
  - apply Hd, Hm.
Qed.

Lemma keeps_ret (I E : St -> Prop) (a : A) : keeps I E (ret a).
Proof. intros st H. exact H. Qed.

Lemma keeps_diverge (I E : St -> Prop) : keeps I E (@diverge A).
Proof. intros st H. exact H. Qed.

Lemma keeps_bind (I E : St -> Prop) (m : M A) (k : A -> M B) :
  keeps I E m -> (forall a, keeps I E (k a)) -> keeps I E (bind m k).
Proof.
  intros Hm Hk. apply triple_bind with (R := post I E); auto.
Qed.

(** [finally] runs its second part from [I] and from [E] alike. *)
Lemma keeps_finally (I E : St -> Prop) (m : M A) (f : M unit) :
  keeps I E m -> keeps I E f -> keeps E E f -> halts f ->
  keeps I E (finally m f).
Proof.
  intros Hm Hf HfE Hh st HI. specialize (Hm st HI).
  unfold finally. destruct (m st) as [[a | e |] st']; simpl in *.
  - specialize (Hf st' Hm). destruct (f st') as [[[] | e' |] st'']; exact Hf.
  - specialize (HfE st' Hm). specialize (Hh st').
    destruct (f st') as [[[] | e' |] st'']; simpl in *;
      [exact HfE | exact HfE | congruence].
  - exact Hm.
Qed.

(** [try/except] whose handler starts from [E] and restores [I]; what
    the handler does not catch leaves in [E]. *)
Lemma keeps_try_except (I E : St -> Prop) (m : M A) (h : exn -> M A) :
  keeps I E m -> (forall e, triple E (h e) (post I E)) ->
  keeps I E (try_except m h).
Proof.
  intros Hm Hh st HI. specialize (Hm st HI).
  unfold try_except. destruct (m st) as [[a | e |] st']; simpl in *.
  - exact Hm.
  - destruct (is_Exception e); [| exact Hm].
    specialize (Hh e st' Hm). destruct (h e st') as [[a | e' |] st''];
      exact Hh.
  - exact Hm.
Qed.

End Logic.

Section Primitives.

Variables I E : St -> Prop.

Lemma keeps_get_self : keeps I E get_self.
Proof. intros st H. exact H. Qed.

Lemma keeps_emit (ev : event) :
  (forall st, I st -> I (push ev st)) -> keeps I E (emit ev).
Proof. intros H st HI. apply H, HI. Qed.

Lemma keeps_tick :
  (forall st, I st -> I (later st)) -> keeps I E tick.
Proof. intros H st HI. apply H, HI. Qed.

Lemma keeps_modify_self (f : Worker -> Worker) :
  (forall st, I st -> I (with_self f st)) -> keeps I E (modify_self f).
Proof. intros H st HI. apply H, HI. Qed.

Lemma keeps_throw {A : Type} (e : exn) :
  (forall st, I st -> E (push (ev_raise e) st)) -> keeps I E (@throw A e).
Proof. intros H st HI. apply H, HI. Qed.

Lemma keeps_extcall (env : Env) (c : sdk_call) :
  (forall st, I st -> I (later (push (ev_call (clock st) c) st))) ->
  (forall st e, I st ->
     E (later (push (ev_raise e) (push (ev_call (clock st) c) st)))) ->
  keeps I E (extcall env c).
Proof.
  intros Hok Hex st HI. unfold extcall.
  destruct (fault env (clock st)) as [e |]; simpl.
  - apply (Hex st e HI).
  - apply (Hok st HI).
Qed.

End Primitives.

Lemma halts_ret {A : Type} (a : A) : halts (ret a).
Proof. intros st. discriminate. Qed.

Lemma halts_emit (ev : event) : halts (emit ev).
Proof. intros st. discriminate. Qed.

Lemma halts_throw {A : Type} (e : exn) : halts (@throw A e).
Proof. intros st. discriminate. Qed.

Lemma halts_extcall (env : Env) (c : sdk_call) : halts (extcall env c).
Proof.
  intros st. unfold extcall. destruct (fault env (clock st)); discriminate.
Qed.

Lemma halts_get_self : halts get_self.
Proof. intros st. discriminate. Qed.

Lemma halts_modify_self (f : Worker -> Worker) : halts (modify_self f).
Proof. intros st. discriminate. Qed.

Lemma halts_tick : halts tick.
Proof. intros st. discriminate. Qed.

Lemma halts_bind {A B : Type} (m : M A) (k : A -> M B) :
  halts m -> (forall a, halts (k a)) -> halts (bind m k).
Proof.
  intros Hm Hk st. unfold bind. specialize (Hm st).
  destruct (m st) as [[a | e |] st']; simpl in *;
    [apply Hk | discriminate | congruence].
Qed.

Ltac head_of t :=
  match t with
  | ?f _ => head_of f
  | _ => t
  end.

(** One step of a proof of [keeps I E m], by the shape of [m]: [known]
    closes what earlier lemmas cover, [leaf] the conditions on states. *)
Ltac keeps_step known leaf :=
  cbv zeta;
  first
    [ solve [known]
    | apply keeps_ret
    | apply keeps_diverge
    | apply keeps_get_self
    | apply keeps_emit; solve [leaf]
    | apply keeps_tick; solve [leaf]
    | apply keeps_modify_self; solve [leaf]
    | apply keeps_extcall; solve [leaf]
    | apply keeps_throw; solve [leaf]
    | apply keeps_bind; [ | intro ]
    | apply keeps_finally
    | apply halts_ret
    | apply halts_emit
    | apply halts_extcall
    | apply halts_throw
    | apply halts_get_self
    | apply halts_modify_self
    | apply halts_tick
    | apply halts_bind; [ | intro ]
    | match goal with
      | |- keeps _ _ (if ?b then ?x else ?y) =>
          let v := eval compute in b in
          match v with
          | true => change (if b then x else y) with x
          | false => change (if b then x else y) with y
          | _ => destruct b
          end
      | |- keeps _ _ (match ?o with Some _ => _ | None => _ end) => destruct o
      | |- halts (if ?b then _ else _) => destruct b
      | |- halts (match ?o with Some _ => _ | None => _ end) => destruct o
      | |- keeps _ _ ?m => let h := head_of m in unfold h
      | |- halts ?m => let h := head_of m in unfold h
      end ].

Ltac keeps_auto known leaf := repeat keeps_step known leaf.

(** ** The reconfigure flag is never written by the worker *)

Ltac flag_leaf := intros; unfold flag_is in *; simpl; assumption.

Section Flag.

Variable env : Env.
Variable b : bool.

Lemma flag_deliver (ps : list nat) : keeps (flag_is b) (flag_is b) (deliver ps).
Proof.
  induction ps as [| p ps IH]; simpl; keeps_auto ltac:(exact IH) flag_leaf.
Qed.

Lemma flag_drain (iters : nat) (oak : handle) :
  keeps (flag_is b) (flag_is b) (drain env iters oak).
Proof.
  induction iters as [| n IH]; simpl;
    keeps_auto ltac:(first [exact IH | apply flag_deliver]) flag_leaf.
Qed.

Lemma flag_pipeline_loop (iters : nat) :
  keeps (flag_is b) (flag_is b) (_pipeline_loop env iters).
Proof.
  unfold _pipeline_loop. cbv zeta.
  apply keeps_finally; [apply keeps_try_except with (E := flag_is b) | | |];
    [ | intro e; fold (@keeps nat (flag_is b) (flag_is b)) | | | ];
    keeps_auto ltac:(apply flag_drain) flag_leaf.
Qed.

Lemma flag_Worker_run_loop (sessions iters : nat) :
  keeps (flag_is b) (flag_is b) (Worker_run_loop env sessions iters).
Proof.
  induction sessions as [| n IH]; simpl;
    keeps_auto ltac:(first [exact IH | apply flag_pipeline_loop]) flag_leaf.
Qed.

Lemma flag_Worker_run (sessions iters : nat) :
  keeps (flag_is b) (flag_is b) (Worker_run env sessions iters).
Proof.
  unfold Worker_run.
  keeps_auto ltac:(apply flag_Worker_run_loop) flag_leaf.
Qed.

End Flag.

(** What [keeps] says about the final state, whatever the outcome. *)
Lemma keeps_same {A : Type} (I : St -> Prop) (m : M A) (st : St) :
  keeps I I m -> I st -> I (snd (m st)).
Proof.
  intros H HI. specialize (H st HI). unfold post in H.
  destruct (fst (m st)); exact H.
Qed.

(** ** Every failure is logged with the count 1 *)

Ltac one_leaf :=
  intros; unfold counts_are_one in *; simpl;
  try (constructor; [reflexivity |]); assumption.

Section CountsAreOne.

Variable env : Env.

Lemma one_deliver (ps : list nat) :
  keeps counts_are_one counts_are_one (deliver ps).
Proof.
  induction ps as [| p ps IH]; simpl; keeps_auto ltac:(exact IH) one_leaf.
Qed.

Lemma one_drain (iters : nat) (oak : handle) :
  keeps counts_are_one counts_are_one (drain env iters oak).
Proof.
  induction iters as [| n IH]; simpl;
    keeps_auto ltac:(first [exact IH | apply one_deliver]) one_leaf.
Qed.

Lemma one_pipeline_loop (iters : nat) :
  keeps counts_are_one counts_are_one (_pipeline_loop env iters).
Proof.
  unfold _pipeline_loop. cbv zeta.
  apply keeps_finally; [apply keeps_try_except with (E := counts_are_one) | | |];
    [ | intro e; fold (@keeps nat counts_are_one counts_are_one) | | | ];
    keeps_auto ltac:(apply one_drain) one_leaf.
Qed.

Lemma one_Worker_run_loop (sessions iters : nat) :
  keeps counts_are_one counts_are_one (Worker_run_loop env sessions iters).
Proof.
  induction sessions as [| n IH]; simpl;
    keeps_auto ltac:(first [exact IH | apply one_pipeline_loop]) one_leaf.
Qed.

Lemma one_Worker_run (sessions iters : nat) :
  keeps counts_are_one counts_are_one (Worker_run env sessions iters).
Proof.
  unfold Worker_run.
  keeps_auto ltac:(apply one_Worker_run_loop) one_leaf.
Qed.

End CountsAreOne.

(** [_pipeline_loop] ends with [failures] at 0 or 1, or is still draining;
    nothing of an earlier invocation reaches it. *)
Lemma pipeline_loop_unfold (env : Env) (iters : nat) (st : St) :
  _pipeline_loop env iters st =
  match _pipeline_loop_try env iters st with
  | (Return _, st') =>
      (Return 0, push (ev_log DEBUG (text "Exiting worker camera loop.")) st')
  | (Raise e, st') =>
      if is_Exception e
      then (Return 1, push (ev_log DEBUG (text "Exiting worker camera loop."))
                           (push (ev_log DEBUG (failure_count 1 e)) st'))
      else (Raise e,
            push (ev_log DEBUG (text "Exiting worker camera loop.")) st')
  | (Diverge, st') => (Diverge, st')
  end.
Proof.
  unfold _pipeline_loop, finally, try_except, bind. cbv zeta.
  destruct (_pipeline_loop_try env iters st) as [[[] | e |] st'];
    try reflexivity.
  destruct (is_Exception e); reflexivity.
Qed.

(** How an invocation can end: with [failures] at 0, with [failures] at
    1, still draining, or left by what is not an [Exception]. *)
Lemma pipeline_loop_outcome (env : Env) (iters : nat) (st : St) :
  fst (_pipeline_loop env iters st) = Return 0 \/
  fst (_pipeline_loop env iters st) = Return 1 \/
  fst (_pipeline_loop env iters st) = Diverge \/
  (exists e, is_Exception e = false /\
             fst (_pipeline_loop env iters st) = Raise e).
Proof.
  rewrite pipeline_loop_unfold.
  destruct (_pipeline_loop_try env iters st) as [[[] | e |] st'];
    simpl; auto.
  destruct (is_Exception e) eqn:He; simpl; auto.
  right. right. right. exists e. auto.
Qed.

(** ** A raise leaves its mark on the trace *)


Section Raises.

Variable env : Env.




End Raises.

(** ** What can leave the worker *)

Section RaisesOnly.

Context {A B : Type}.
Variable p : exn -> Prop.

Lemma ro_ret (a : A) : raises_only p (ret a).
Proof. intros st. exact Logic.I. Qed.

Lemma ro_diverge : raises_only p (@diverge A).
Proof. intros st. exact Logic.I. Qed.

Lemma ro_emit (ev : event) : raises_only p (emit ev).
Proof. intros st. exact Logic.I. Qed.

Lemma ro_tick : raises_only p tick.
Proof. intros st. exact Logic.I. Qed.

Lemma ro_get_self : raises_only p get_self.
Proof. intros st. exact Logic.I. Qed.

Lemma ro_modify_self (f : Worker -> Worker) : raises_only p (modify_self f).
Proof. intros st. exact Logic.I. Qed.

Lemma ro_extcall (env : Env) (c : sdk_call) :
  (forall e, from_env env e -> p e) -> raises_only p (extcall env c).
Proof.
  intros H st. unfold extcall.
  destruct (fault env (clock st)) as [e |] eqn:Hf; simpl; [| exact Logic.I].
  apply H. exists (clock st). exact Hf.
Qed.

Lemma ro_bind (m : M A) (k : A -> M B) :
  raises_only p m -> (forall a, raises_only p (k a)) ->
  raises_only p (bind m k).
Proof.
  intros Hm Hk st. specialize (Hm st). unfold bind.
  destruct (m st) as [[a | e |] st']; simpl in *;
    [apply Hk | exact Hm | exact Logic.I].
Qed.

Lemma ro_finally (m : M A) (f : M unit) :
  raises_only p m -> raises_only p f -> raises_only p (finally m f).
Proof.
  intros Hm Hf st. specialize (Hm st). unfold finally.
  destruct (m st) as [[a | e |] st']; simpl in *;
    try exact Logic.I;
    specialize (Hf st'); destruct (f st') as [[[] | e' |] st''];
    simpl in *; auto.
Qed.

End RaisesOnly.

(** [try/except]: of what the body raises only what is not an
    [Exception] gets out, and what the handler raises. *)
Lemma ro_try_except {A : Type} (p q : exn -> Prop) (m : M A)
      (h : exn -> M A) :
  raises_only p m -> (forall e, raises_only q (h e)) ->
  (forall e, p e -> is_Exception e = false -> q e) ->
  raises_only q (try_except m h).
Proof.
  intros Hm Hh Hpq st. specialize (Hm st). unfold try_except.
  destruct (m st) as [[a | e |] st']; simpl in *; try exact Logic.I.
  destruct (is_Exception e) eqn:He.
  - apply Hh.
  - simpl. apply Hpq; assumption.
Qed.

Ltac ro_step known :=
  cbv zeta;
  first
    [ solve [known]
    | apply ro_ret
    | apply ro_diverge
    | apply ro_get_self
    | apply ro_emit
    | apply ro_tick
    | apply ro_modify_self
    | apply ro_extcall; solve [auto]
    | apply ro_bind; [ | intro ]
    | apply ro_finally
    | match goal with
      | |- raises_only _ (if ?b then ?x else ?y) =>
          let v := eval compute in b in
          match v with
          | true => change (if b then x else y) with x
          | false => change (if b then x else y) with y
          | _ => destruct b
          end
      | |- raises_only _ (match ?o with Some _ => _ | None => _ end) =>
          destruct o
      | |- raises_only _ ?m => let h := head_of m in unfold h
      end ].

Ltac ro_auto known := repeat ro_step known.

Section LeavesTheWorker.

Variable env : Env.

Lemma ro_deliver (p : exn -> Prop) (ps : list nat) :
  raises_only p (deliver ps).
Proof.
  induction ps as [| x ps IH]; simpl; ro_auto ltac:(exact IH).
Qed.

(** What a poll raises is what the device raised. *)
Lemma ro_poll (oak : handle) : raises_only (from_env env) (poll env oak).
Proof.
  intros st. unfold poll, bind at 1 2, tick, emit. simpl.
  unfold bind at 1.
  pose proof (ro_deliver (from_env env) (poll_src env (clock st))
                (mkSt (self st) (S (clock st))
                      (ev_call (clock st) oak_poll :: trace st))) as Hd.
  destruct (deliver (poll_src env (clock st)) _) as [[[] | e |] st'];
    simpl in *; auto.
  destruct (fault env (clock st)) as [e |] eqn:Hf; simpl; [| exact Logic.I].
  exists (clock st). exact Hf.
Qed.

Lemma ro_drain (iters : nat) (oak : handle) :
  raises_only (from_env env) (drain env iters oak).
Proof.
  induction iters as [| n IH]; simpl;
    ro_auto ltac:(first [exact IH | apply ro_poll]).
Qed.

Lemma ro_pipeline_loop_try (iters : nat) :
  raises_only (from_env env) (_pipeline_loop_try env iters).
Proof.
  unfold _pipeline_loop_try. ro_auto ltac:(apply ro_drain).
Qed.

(** Only what is not an [Exception] leaves [_pipeline_loop]. *)
Lemma ro_pipeline_loop (iters : nat) :
  raises_only (passes_through env) (_pipeline_loop env iters).
Proof.
  unfold _pipeline_loop. cbv zeta.
  apply ro_finally; [| apply ro_emit].
  apply ro_try_except with (p := from_env env).
  - ro_auto ltac:(apply ro_pipeline_loop_try).
  - intro e. unfold _pipeline_loop_except. ro_auto ltac:(idtac).
  - intros e Hfrom Hexc. split; assumption.
Qed.

Lemma ro_Worker_run_loop (sessions iters : nat) :
  raises_only (passes_through env) (Worker_run_loop env sessions iters).
Proof.
  induction sessions as [| n IH]; simpl;
    ro_auto ltac:(first [exact IH | apply ro_pipeline_loop]).
Qed.

Lemma ro_Worker_run (sessions iters : nat) :
  raises_only (passes_through env) (Worker_run env sessions iters).
Proof.
  unfold Worker_run. ro_auto ltac:(apply ro_Worker_run_loop).
Qed.

End LeavesTheWorker.

(** ** Once [stop()] is called, the loops end *)

Ltac clock_leaf := intros; unfold at_least in *; simpl; lia.

Section Stopping.

Variable env : Env.

Lemma clock_deliver (k : nat) (ps : list nat) :
  keeps (at_least k) (at_least k) (deliver ps).
Proof.
  induction ps as [| p ps IH]; simpl; keeps_auto ltac:(exact IH) clock_leaf.
Qed.

Lemma halts_deliver (ps : list nat) : halts (deliver ps).
Proof.
  induction ps as [| p ps IH]; simpl;
    keeps_auto ltac:(exact IH) ltac:(idtac).
Qed.

(** The three handlers of one iteration. *)
Lemma clock_handlers (k : nat) (oak : handle) :
  keeps (at_least k) (at_least k)
        (bind (_handle_color_output env oak) (fun _ =>
         bind (_handle_depth_output env oak) (fun _ =>
         _handle_pcd_output env oak))).
Proof. keeps_auto ltac:(apply clock_deliver) clock_leaf. Qed.

Lemma halts_handlers (oak : handle) :
  halts (bind (_handle_color_output env oak) (fun _ =>
         bind (_handle_depth_output env oak) (fun _ =>
         _handle_pcd_output env oak))).
Proof. keeps_auto ltac:(apply halts_deliver) ltac:(idtac). Qed.

Lemma read_running_returns (st : St) :
  exists b st',
    read_running env st = (Return b, st') /\
    clock st' = S (clock st) /\
    (stop_req env (clock st) = true -> b = false).
Proof.
  unfold read_running, bind, tick, get_self, ret. simpl.
  destruct (stop_req env (clock st)); simpl;
    eexists; eexists; repeat split; auto; discriminate.
Qed.

Lemma bind_returns {A B : Type} (k : nat) (m : M A) (f : A -> M B) (st : St) :
  keeps (at_least k) (at_least k) m -> halts m -> at_least k st ->
  (forall a st', at_least k st' -> fst (f a st') <> Diverge) ->
  fst (bind m f st) <> Diverge.
Proof.
  intros Hk Hh Hst Hf. specialize (Hk st Hst). specialize (Hh st).
  unfold bind. destruct (m st) as [[a | e |] st']; simpl in *.
  - apply Hf, Hk.
  - discriminate.
  - congruence.
Qed.

Lemma drain_step (iters : nat) (oak : handle) :
  drain env (S iters) oak
  = bind (read_running env)
         (fun r => if r
                   then bind (_handle_color_output env oak) (fun _ =>
                        bind (_handle_depth_output env oak) (fun _ =>
                        bind (_handle_pcd_output env oak) (fun _ =>
                        drain env iters oak)))
                   else ret tt).
Proof. reflexivity. Qed.

(** With [k] more iterations than instants left before the stop, the
    drain loop ends. *)
Lemma drain_returns (n k : nat) (oak : handle) (st : St) :
  stopped_from env n -> n <= clock st + k ->
  fst (drain env (S k) oak st) <> Diverge.
Proof.
  intros Hstop. revert st. induction k as [| k IH]; intros st Hn;
    rewrite drain_step; unfold bind at 1;
    destruct (read_running_returns st) as (b & st' & Hr & Hc & Hb);
    rewrite Hr.
  - rewrite Hb by (apply Hstop; lia). discriminate.
  - destruct b; [| discriminate].
    apply (bind_returns (clock st')); [| | unfold at_least; lia |].
    { keeps_auto ltac:(apply clock_deliver) clock_leaf. }
    { keeps_auto ltac:(apply halts_deliver) ltac:(idtac). }
    intros _ st1 H1.
    apply (bind_returns (clock st')); [| | exact H1 |].
    { keeps_auto ltac:(apply clock_deliver) clock_leaf. }
    { keeps_auto ltac:(apply halts_deliver) ltac:(idtac). }
    intros _ st2 H2.
    apply (bind_returns (clock st')); [| | exact H2 |].
    { keeps_auto ltac:(apply clock_deliver) clock_leaf. }
    { keeps_auto ltac:(apply halts_deliver) ltac:(idtac). }
    intros _ st3 H3. apply IH. unfold at_least in H3. lia.
Qed.

Lemma clock_drain (k iters : nat) (oak : handle) :
  keeps (at_least k) (at_least k) (drain env iters oak).
Proof.
  induction iters as [| n IH]; simpl;
    keeps_auto ltac:(first [exact IH | apply clock_deliver]) clock_leaf.
Qed.

Lemma clock_pipeline_loop (k iters : nat) :
  keeps (at_least k) (at_least k) (_pipeline_loop env iters).
Proof.
  unfold _pipeline_loop. cbv zeta.
  apply keeps_finally; [apply keeps_try_except with (E := at_least k) | | |];
    [ | intro e; fold (@keeps nat (at_least k) (at_least k)) | | | ];
    keeps_auto ltac:(apply clock_drain) clock_leaf.
Qed.

(** A session ends once [stop()] is called. *)
Lemma pipeline_loop_returns (n k : nat) (st : St) :
  stopped_from env n -> n <= clock st + k ->
  fst (_pipeline_loop env (S k) st) <> Diverge.
Proof.
  intros Hstop Hn. rewrite pipeline_loop_unfold.
  assert (H : fst (_pipeline_loop_try env (S k) st) <> Diverge).
  { unfold _pipeline_loop_try, with_OakCamera.
    apply (bind_returns (clock st));
      [ keeps_auto ltac:(idtac) clock_leaf
      | keeps_auto ltac:(idtac) ltac:(idtac)
      | unfold at_least; lia | ].
    intros _ st1 H1.
    apply (bind_returns (clock st));
      [ keeps_auto ltac:(idtac) clock_leaf
      | keeps_auto ltac:(idtac) ltac:(idtac)
      | exact H1 | ].
    intros oak st2 H2. unfold finally.
    assert (Hbody : fst ((color <- _add_camera_rgb_node env oak;;
                          stereo <- _add_depth_node env oak color;;
                          _add_pc_node env oak color stereo;;
                          extcall env (oak_start false);;
                          drain env (S k) oak) st2) <> Diverge).
    { do 4 (apply (bind_returns (clock st));
              [ keeps_auto ltac:(idtac) clock_leaf
              | keeps_auto ltac:(idtac) ltac:(idtac)
              | assumption | ];
            intros ? ? ?).
      apply drain_returns with (n := n); [exact Hstop |].
      unfold at_least in *. lia. }
    match goal with
    | |- context [bind ?m ?f st2] => destruct (bind m f st2) as [[[] | e |] st3]
    end; simpl in *; try congruence;
      unfold bind, extcall; destruct (fault env (clock st3)); discriminate. }
  destruct (_pipeline_loop_try env (S k) st) as [[[] | e |] st']; simpl in *;
    try congruence.
  destruct (is_Exception e); discriminate.
Qed.

(** [Worker.run] returns once [stop()] is called: [n + 1] sessions of
    [n + 1] iterations are enough when the call comes at instant [n]. *)
Lemma Worker_run_loop_returns (n k : nat) (st : St) :
  stopped_from env n -> n <= clock st + k ->
  fst (Worker_run_loop env (S k) (S n) st) <> Diverge.
Proof.
  intros Hstop. revert st. induction k as [| k IH]; intros st Hn;
    cbn [Worker_run_loop]; unfold bind at 1;
    destruct (read_running_returns st) as (b & st' & Hr & Hc & Hb);
    rewrite Hr.
  - rewrite Hb by (apply Hstop; lia). discriminate.
  - destruct b; [| discriminate].
    apply (bind_returns (clock st')); [| | unfold at_least; lia |].
    + apply clock_pipeline_loop.
    + intros st1. apply pipeline_loop_returns with (n := n); [exact Hstop | lia].
    + intros _ st1 H1. apply IH. unfold at_least in H1. lia.
Qed.

Lemma Worker_run_returns (n : nat) (st : St) :
  stopped_from env n ->
  fst (Worker_run env (S n) (S n) st) <> Diverge.
Proof.
  intros Hstop.
  pose proof (Worker_run_loop_returns n n st Hstop ltac:(lia)) as Hd.
  unfold Worker_run, finally.
  destruct (Worker_run_loop env (S n) (S n) st) as [[[] | e |] st'];
    simpl in *; [discriminate | discriminate | congruence].
Qed.

End Stopping.

(** ** The watchdog and a raising callback *)

Section WatchdogDies.

Variable env : Env.

(** Reading the flag returns, and raises nothing. *)
Lemma read_running_total (st : St) :
  exists st1,
    read_running env st = (Return (running (manager (self st1))), st1)
    /\ raised (trace st1) = raised (trace st).
Proof.
  exists (snd (read_running env st)).
  destruct st as [w c tr]. destruct w.
  unfold read_running, bind, tick, get_self, ret. simpl.
  destruct (stop_req env c); simpl; split; reflexivity.
Qed.

(** One round of the watchdog's loop, spelled out. *)
Lemma watchdog_round (n : nat) (st st1 : St) (b : bool) :
  read_running env st = (Return b, st1) ->
  WorkerManager_loop env (S n) st
  = let checked :=
      ev_log DEBUG (text "Checking if worker must be reconfigured.")
      :: trace st1 in
    if b then
      if needs_reconfigure (manager (self st1)) then
        let called :=
          ev_call (clock st1) reconfigure_callback
          :: ev_log DEBUG
               (text "Worker needs reconfiguring; reconfiguring worker.")
          :: checked in
        match fault env (clock st1) with
        | Some e =>
            (Raise e, mkSt (self st1) (S (clock st1)) (ev_raise e :: called))
        | None =>
            WorkerManager_loop env n
              (mkSt (self st1) (S (clock st1)) (ev_sleep 5 :: called))
        end
      else
        WorkerManager_loop env n
          (mkSt (self st1) (clock st1) (ev_sleep 5 :: checked))
    else (Return tt, st1).
Proof.
  intros Hr. cbn [WorkerManager_loop]. unfold bind at 1. rewrite Hr.
  destruct b; [| reflexivity].
  unfold WorkerManager_run_body, bind, log, emit, get_self, ret, extcall.
  simpl.
  destruct (needs_reconfigure (manager (self st1))); simpl.
  - destruct (fault env (clock st1)); reflexivity.
  - reflexivity.
Qed.

(** The first raise of the callback is the last thing the loop does. *)
Lemma watchdog_loop_dies (fuel : nat) (st : St) :
  raised (trace st) = false ->
  match fst (WorkerManager_loop env fuel st) with
  | Raise e =>
      (exists k rest,
          trace (snd (WorkerManager_loop env fuel st))
          = ev_raise e :: ev_call k reconfigure_callback :: rest
          /\ fault env k = Some e
          /\ raised rest = false)
      /\ needs_reconfigure
           (manager (self (snd (WorkerManager_loop env fuel st)))) = true
      /\ running
           (manager (self (snd (WorkerManager_loop env fuel st)))) = true
  | _ => raised (trace (snd (WorkerManager_loop env fuel st))) = false
  end.
Proof.
  revert st. induction fuel as [| n IH]; intros st Hq.
  - exact Hq.
  - destruct (read_running_total st) as (st1 & Hr & Hq1).
    rewrite Hq in Hq1.
    rewrite (watchdog_round n st st1 _ Hr). cbv zeta.
    destruct (running (manager (self st1))) eqn:Hrun; [| exact Hq1].
    destruct (needs_reconfigure (manager (self st1))) eqn:Hflag.
    + destruct (fault env (clock st1)) as [e |] eqn:Hf.
      * simpl. split; [| split; assumption].
        eexists. eexists. split; [reflexivity |]. split; [exact Hf |].
        exact Hq1.
      * apply IH. exact Hq1.
    + apply IH. exact Hq1.
Qed.

End WatchdogDies.

(** ** The frame store *)

Lemma apply_stores_returns (ops : list store_op) (st : St) :
  fst (apply_stores ops st) = Return tt.
Proof.
  revert st. induction ops as [| op ops IH]; intros st; simpl.
  - reflexivity.
  - unfold bind. destruct op; simpl; apply IH.
Qed.

Lemma apply_stores_slots (ops : list store_op) (st : St) :
  color_image (self (snd (apply_stores ops st)))
  = latest_color ops (color_image (self st))
  /\ depth_map (self (snd (apply_stores ops st)))
     = latest_depth ops (depth_map (self st))
  /\ pcd (self (snd (apply_stores ops st)))
     = latest_pcd ops (pcd (self st)).
Proof.
  revert st. induction ops as [| op ops IH]; intros st; simpl.
  - auto.
  - unfold bind. destruct op; simpl;
      match goal with
      | |- context [apply_stores ops ?s] => destruct (IH s) as [Hc [Hd Hp]]
      end; simpl in *; auto.
Qed.

(** ** One iteration of the drain loop *)


(** ** Building the pipeline *)

Ltac color_leaf :=
  intros; unfold color_off_with in *; simpl; assumption.

Section ColorOff.

Variable env : Env.
Variable arr : ndarray.

Lemma color_handle_color_output (oak : handle) :
  keeps (color_off_with arr) (color_off_with arr) (_handle_color_output env oak).
Proof.
  intros st H. unfold _handle_color_output, bind, get_self.
  destruct H as [Hoff Hslot]. rewrite Hoff. simpl. split; assumption.
Qed.

Lemma color_deliver (ps : list nat) :
  keeps (color_off_with arr) (color_off_with arr) (deliver ps).
Proof.
  induction ps as [| p ps IH]; simpl; keeps_auto ltac:(exact IH) color_leaf.
Qed.

Lemma color_drain (iters : nat) (oak : handle) :
  keeps (color_off_with arr) (color_off_with arr) (drain env iters oak).
Proof.
  induction iters as [| n IH]; simpl;
    keeps_auto
      ltac:(first [exact IH | apply color_deliver
                  | apply color_handle_color_output])
      color_leaf.
Qed.

Lemma color_pipeline_loop (iters : nat) :
  keeps (color_off_with arr) (color_off_with arr) (_pipeline_loop env iters).
Proof.
  unfold _pipeline_loop. cbv zeta.
  apply keeps_finally;
    [apply keeps_try_except with (E := color_off_with arr) | | |];
    [ | intro e;
        fold (@keeps nat (color_off_with arr) (color_off_with arr)) | | | ];
    keeps_auto ltac:(apply color_drain) color_leaf.
Qed.

Lemma color_Worker_run_loop (sessions iters : nat) :
  keeps (color_off_with arr) (color_off_with arr)
        (Worker_run_loop env sessions iters).
Proof.
  induction sessions as [| n IH]; simpl;
    keeps_auto ltac:(first [exact IH | apply color_pipeline_loop]) color_leaf.
Qed.

Lemma color_Worker_run (sessions iters : nat) :
  keeps (color_off_with arr) (color_off_with arr)
        (Worker_run env sessions iters).
Proof.
  unfold Worker_run.
  keeps_auto ltac:(apply color_Worker_run_loop) color_leaf.
Qed.

End ColorOff.

Lemma extends_push (tr0 : list event) (ev : event) (st : St) :
  is_call is_create_pointcloud ev = false ->
  extends tr0 st -> extends tr0 (push ev st).
Proof.
  intros Hev [new [Htr Hnone]]. exists (ev :: new). simpl.
  rewrite Htr, Hev. auto.
Qed.

Ltac extends_leaf :=
  intros;
  first [ assumption
        | apply extends_push; [reflexivity | extends_leaf]
        | match goal with
          | H : extends _ ?st |- extends _ (later ?st) => exact H
          | H : extends _ ?st |- extends _ (with_self _ ?st) => exact H
          | H : extends _ ?st |- extends _ (later ?st') =>
              change (extends _ (later st')) with (extends _ st')
          end; extends_leaf ].

Section Extends.

Variable env : Env.
Variable tr0 : list event.

Lemma extends_deliver (ps : list nat) :
  keeps (extends tr0) (extends tr0) (deliver ps).
Proof.
  induction ps as [| p ps IH]; simpl; keeps_auto ltac:(exact IH) extends_leaf.
Qed.

Lemma extends_drain (iters : nat) (oak : handle) :
  keeps (extends tr0) (extends tr0) (drain env iters oak).
Proof.
  induction iters as [| n IH]; simpl;
    keeps_auto ltac:(first [exact IH | apply extends_deliver]) extends_leaf.
Qed.

End Extends.

Lemma calls_newest_first_app (a b : list event) :
  calls_newest_first (a ++ b) = calls_newest_first a ++ calls_newest_first b.
Proof.
  induction a as [| ev a IH]; simpl; [reflexivity |].
  destruct ev; simpl; rewrite IH; reflexivity.
Qed.

Lemma calls_app (a b : list event) : calls (a ++ b) = calls b ++ calls a.
Proof. unfold calls. rewrite calls_newest_first_app. apply rev_app_distr. Qed.

Lemma firstn_length_app {T : Type} (l l' : list T) :
  firstn (List.length l) (l ++ l') = l.
Proof. induction l as [| x l IH]; simpl; [destruct l' | rewrite IH]; reflexivity.
Qed.

Lemma started_app (new tr0 : list event) :
  started tr0 = true -> started (new ++ tr0) = true.
Proof.
  intros H. unfold started in *. rewrite existsb_app, H. apply orb_true_r.
Qed.

(** What follows a finished build does not disturb the facts about it. *)
Lemma depth_only_session_grows (env : Env) (fr : float) (c : nat)
      (tr0 new : list event) :
  filter (is_call is_create_pointcloud) new = [] ->
  filter (is_call is_create_pointcloud) tr0
  = [ev_call (11 + c) (create_pointcloud (Some (9 + c)) None)] ->
  started tr0 = true ->
  calls tr0 = depth_only_build fr c ->
  depth_only_session env fr c (new ++ tr0).
Proof.
  intros Hnew Hpc Hst Hcalls. split.
  - right. rewrite filter_app, Hnew, Hpc. reflexivity.
  - rewrite (started_app new tr0 Hst), calls_app, Hcalls.
    apply (firstn_length_app (depth_only_build fr c)).
Qed.

Lemma color_depth_session_grows (env : Env) (h wd : Z) (fr : float) (c : nat)
      (tr0 new : list event) :
  started tr0 = true ->
  calls tr0 = color_depth_build h wd fr c ->
  color_depth_session env h wd fr c (new ++ tr0).
Proof.
  intros Hst Hcalls. unfold color_depth_session.
  rewrite (started_app new tr0 Hst), calls_app, Hcalls.
  apply (firstn_length_app (color_depth_build h wd fr c)).
Qed.

Lemma extends_refl (st : St) : extends (trace st) st.
Proof. exists []. split; reflexivity. Qed.

(** Run the build call by call, on both answers of each call. *)
Ltac run_build env :=
  repeat (match goal with
          | |- context [fault env ?x] => destruct (fault env x) eqn:?
          end; simpl).

(** Name the call of the build that the environment made raise. *)
Ltac blame k :=
  first [ solve [exists k; split; [lia | simpl; congruence]]
        | lazymatch k with
          | 20%nat => fail
          | _ => blame constr:(S k)
          end ].

(** After the build: the drain loop, then [__exit__]. *)
Ltac run_drain env iters :=
  match goal with
  | |- context [drain env iters ?o ?s] =>
      let Hd := fresh "Hd" in
      pose proof (extends_drain env (trace s) iters o s (extends_refl s)) as Hd;
      unfold post in Hd;
      destruct (drain env iters o s) as [[[] | ? |] ?];
      simpl in Hd; destruct Hd as [? [Hd ?]]; simpl;
      try match goal with
          | |- context [fault env ?x] => destruct (fault env x)
          end; simpl; rewrite Hd
  end.

Lemma depth_only_try (env : Env) (w : Worker) (c iters : nat) :
  should_get_color w = false -> should_get_depth w = true ->
  depth_only_session env (frame_rate w) c
    (trace (snd (_pipeline_loop_try env iters (boot w c)))).
Proof.
  destruct w as [h wd fr col dep ci dm pc mg ws]. simpl.
  intros -> ->.
  unfold _pipeline_loop_try, with_OakCamera, _add_camera_rgb_node,
    _add_depth_node, _add_pc_node, bind, finally, extcall, log, emit,
    get_self, ret, boot. simpl.
  run_build env.
  all: try (split; [first [left; reflexivity | right; reflexivity]
                   | first [reflexivity | blame 0%nat]]).
  run_drain env iters.
  all: match goal with
       | |- depth_only_session _ _ _ (?a :: ?b :: ?x ++ ?t) =>
           apply (depth_only_session_grows env fr c t (a :: b :: x))
       | |- depth_only_session _ _ _ (?a :: ?x ++ ?t) =>
           apply (depth_only_session_grows env fr c t (a :: x))
       | |- depth_only_session _ _ _ (?x ++ ?t) =>
           apply (depth_only_session_grows env fr c t x)
       end; first [simpl; assumption | reflexivity].
Qed.

Lemma color_depth_try (env : Env) (w : Worker) (c iters : nat) :
  should_get_color w = true -> should_get_depth w = true ->
  color_depth_session env (height w) (width w) (frame_rate w) c
    (trace (snd (_pipeline_loop_try env iters (boot w c)))).
Proof.
  destruct w as [h wd fr col dep ci dm pc mg ws]. simpl.
  intros -> ->.
  unfold _pipeline_loop_try, with_OakCamera, _add_camera_rgb_node,
    _add_depth_node, _add_pc_node, bind, finally, extcall, log, emit,
    get_self, ret, boot. simpl.
  run_build env.
  all: try (first [reflexivity | blame 0%nat]).
  run_drain env iters.
  all: match goal with
       | |- color_depth_session _ _ _ _ _ (?a :: ?b :: ?x ++ ?t) =>
           apply (color_depth_session_grows env h wd fr c t (a :: b :: x))
       | |- color_depth_session _ _ _ _ _ (?a :: ?x ++ ?t) =>
           apply (color_depth_session_grows env h wd fr c t (a :: x))
       | |- color_depth_session _ _ _ _ _ (?x ++ ?t) =>
           apply (color_depth_session_grows env h wd fr c t x)
       end; reflexivity.
Qed.

(** * The claims *)

(** C1.  The code at the input the claim is about.  The device cannot be
    reached, so every session fails when it is opened; the worker gets
    through five sessions.  After the fourth failure, and after the fifth,
    [needs_reconfigure] is still false, a fifth session has been opened
    although no watchdog tick took place, every failure was logged with
    the count 1 and the callback never ran.  The escalation branch is
    there: the [except] block entered with [failures = 3] does set the
    flag; [_pipeline_loop] only ever enters it with 0. *)
Theorem four_failures_never_raise_the_flag :
  let r4 := Worker_run unreachable_device 4 2 (fresh_worker true true) in
  let r := Worker_run unreachable_device 5 2 (fresh_worker true true) in
  failures_handled (trace (snd r4)) = 4 /\
  needs_reconfigure (manager (self (snd r4))) = false /\
  fst r = Diverge /\
  needs_reconfigure (manager (self (snd r))) = false /\
  failures_handled (trace (snd r)) = 5 /\
  session_opens (trace (snd r)) = 5 /\
  logged_failures (trace (snd r)) = [1; 1; 1; 1; 1] /\
  reconfigure_calls (trace (snd r)) = 0 /\
  needs_reconfigure
    (manager (self (snd (_pipeline_loop_except 3 (Exception "device unreachable")
                           (fresh_worker true true))))) = true.
Proof. vm_compute. repeat split; reflexivity. Qed.

(** C2.  Whatever the device does, a run of the worker that handles at
    most three failures leaves [needs_reconfigure] false; and [failures]
    starts from 0 in every invocation of [_pipeline_loop]: each failure is
    logged with the count 1, and an invocation from any state ends with
    [failures] at 0 or 1 unless it is still draining or is left, with no
    failure counted, by what [except Exception] does not catch: a raise
    of an external call that is not an instance of [Exception]. *)
Theorem at_most_three_failures_never_escalate
        (env : Env) (w : Worker) (c sessions iters : nat) :
  needs_reconfigure (manager w) = false ->
  failures_handled
    (trace (snd (Worker_run env sessions iters (boot w c)))) <= 3 ->
  needs_reconfigure
    (manager (self (snd (Worker_run env sessions iters (boot w c))))) = false
  /\ Forall (fun n => n = 1)
            (logged_failures
               (trace (snd (Worker_run env sessions iters (boot w c)))))
  /\ (forall st,
        fst (_pipeline_loop env iters st) = Return 0 \/
        fst (_pipeline_loop env iters st) = Return 1 \/
        fst (_pipeline_loop env iters st) = Diverge \/
        (exists e, is_Exception e = false /\
                   (exists k, fault env k = Some e) /\
                   fst (_pipeline_loop env iters st) = Raise e)).
Proof.
  intros Hflag _. split; [| split].
  - apply (keeps_same (flag_is false)).
    + apply flag_Worker_run.
    + exact Hflag.
  - apply (keeps_same counts_are_one).
    + apply one_Worker_run.
    + constructor.
  - intro st.
    destruct (pipeline_loop_outcome env iters st)
      as [H | [H | [H | [e [He H]]]]]; auto.
    right. right. right. exists e.
    pose proof (ro_pipeline_loop env iters st) as Hro.
    rewrite H in Hro. destruct Hro as [_ Hfrom].
    split; [exact He |]. split; [exact Hfrom | exact H].
Qed.

Lemma at_most_three_failures_never_escalate_witness :
  needs_reconfigure
    (manager (self (snd (Worker_run unreachable_device 3 2
                           (boot (self (fresh_worker true true)) 0))))) = false
  /\ Forall (fun n => n = 1)
            (logged_failures
               (trace (snd (Worker_run unreachable_device 3 2
                              (boot (self (fresh_worker true true)) 0)))))
  /\ (forall st,
        fst (_pipeline_loop unreachable_device 2 st) = Return 0 \/
        fst (_pipeline_loop unreachable_device 2 st) = Return 1 \/
        fst (_pipeline_loop unreachable_device 2 st) = Diverge \/
        (exists e, is_Exception e = false /\
                   (exists k, fault unreachable_device k = Some e) /\
                   fst (_pipeline_loop unreachable_device 2 st) = Raise e)).
Proof.
  apply (at_most_three_failures_never_escalate
           unreachable_device (self (fresh_worker true true)) 0 3 2).
  - reflexivity.
  - vm_compute. lia.
Defined.



(** C4, as stated, fails.  A watchdog tick sees the flag set and calls
    the callback; the worker then opens a session, builds it, starts it,
    drains it and leaves it without a single raise; the flag is not
    cleared. *)
Lemma flag_survives_a_successful_rebuild :
  let st1 := snd (WorkerManager_run_body (stops_at 40) (flagged_worker true true)) in
  let r := _pipeline_loop (stops_at 40) 5 st1 in
  reconfigure_calls (trace st1) = 1 /\
  fst r = Return 0 /\
  session_opens (trace (snd r)) = 1 /\
  raised (trace (snd r)) = false /\
  ~ needs_reconfigure (manager (self (snd r))) = false.
Proof. vm_compute. repeat split; try reflexivity. discriminate. Qed.

(** C4, amended.  A watchdog tick that finds the flag set calls the
    callback once and leaves the flag set; and the worker never clears
    it: the flag is still set after any run of the worker from there,
    whatever the sessions of that run do. *)
Theorem watchdog_calls_back_and_flag_stays
        (env : Env) (w : Worker) (c sessions iters : nat) :
  needs_reconfigure (manager w) = true ->
  reconfigure_calls
    (trace (snd (WorkerManager_run_body env (boot w c)))) = 1
  /\ needs_reconfigure
       (manager (self (snd (WorkerManager_run_body env (boot w c))))) = true
  /\ needs_reconfigure
       (manager (self (snd (Worker_run env sessions iters
          (snd (WorkerManager_run_body env (boot w c))))))) = true.
Proof.
  intros Hflag.
  assert (H : reconfigure_calls
                (trace (snd (WorkerManager_run_body env (boot w c)))) = 1
              /\ flag_is true (snd (WorkerManager_run_body env (boot w c)))).
  { unfold WorkerManager_run_body, bind, get_self, log, emit, extcall, boot,
      flag_is. simpl. rewrite Hflag. simpl.
    destruct (fault env c); simpl; auto. }
  destruct H as [Hcalls Hkept]. repeat split; try assumption.
  apply (keeps_same (flag_is true)).
  - apply flag_Worker_run.
  - exact Hkept.
Qed.

Lemma watchdog_calls_back_and_flag_stays_witness :
  reconfigure_calls
    (trace (snd (WorkerManager_run_body (stops_at 40)
                   (boot (self (flagged_worker true true)) 0)))) = 1
  /\ needs_reconfigure
       (manager (self (snd (WorkerManager_run_body (stops_at 40)
                              (boot (self (flagged_worker true true)) 0))))) = true
  /\ needs_reconfigure
       (manager (self (snd (Worker_run (stops_at 40) 2 5
          (snd (WorkerManager_run_body (stops_at 40)
                  (boot (self (flagged_worker true true)) 0))))))) = true.
Proof.
  apply (watchdog_calls_back_and_flag_stays
           (stops_at 40) (self (flagged_worker true true)) 0 2 5).
  reflexivity.
Defined.

(** C5, as stated, fails.  The callback raises on the first tick, and
    only then.  With room for three ticks the watchdog does not keep
    running: [run] ends in that raise, it has not slept, and the callback
    was called once, not again on a next tick. *)
Lemma watchdog_dies_with_the_callback :
  let r := WorkerManager_run fails_at_one 3 (flagged_worker true true) in
  fst r = Raise (Exception "reconfigure failed") /\
  filter is_sleep (trace (snd r)) = [] /\
  ~ 2 <= reconfigure_calls (trace (snd r)).
Proof. vm_compute. repeat split; try reflexivity. lia. Qed.

(** C5, amended.  If the callback raises during a watchdog tick, at
    whichever tick, the watchdog does not retry it, in that tick or
    later: [run] has no handler, so [run] ends in that raise, which ends
    the watchdog thread before it sleeps.  The raising call is the last
    thing on the trace and the only raise there; [needs_reconfigure] and
    [running] are both still true.  And a run that has not ended in a
    raise has seen no raise: the watchdog survives no failure of the
    callback. *)
Theorem callback_error_ends_the_watchdog
        (env : Env) (w : Worker) (c fuel : nat) :
  match fst (WorkerManager_run env fuel (boot w c)) with
  | Raise e =>
      (exists k rest,
          trace (snd (WorkerManager_run env fuel (boot w c)))
          = ev_raise e :: ev_call k reconfigure_callback :: rest
          /\ fault env k = Some e
          /\ raised rest = false)
      /\ needs_reconfigure
           (manager (self (snd (WorkerManager_run env fuel (boot w c))))) = true
      /\ running
           (manager (self (snd (WorkerManager_run env fuel (boot w c))))) = true
  | _ => raised (trace (snd (WorkerManager_run env fuel (boot w c)))) = false
  end.
Proof.
  change (WorkerManager_run env fuel (boot w c))
    with (WorkerManager_loop env fuel
            (push (ev_log DEBUG (text "Starting worker manager.")) (boot w c))).
  apply watchdog_loop_dies. reflexivity.
Qed.

(** C6.  Take a worker with depth enabled, at any instant.  Without
    colour: its colour slot is after any session, and after any run
    however long, what it was before, which is the empty array from
    construction on; a session creates at most one point-cloud node, fed
    by the stereo node and with no colour source, and it has created it,
    by the fourteen calls of [depth_only_build], unless one of those
    fourteen calls was made to raise by the device before [oak.start]
    was reached.  With colour: the session has made the twenty calls of
    [color_depth_build], where [config_stereo] aligns the stereo node to
    the colour camera, unless one of those twenty calls was made to
    raise by the device.  A session that builds no node, or gives up on
    its own, does not meet this. *)
Theorem depth_without_color_and_depth_aligned_to_color
        (env : Env) (w : Worker) (h wd : Z) (fr : float) (color depth : bool)
        (c sessions iters : nat) :
  color_image (self (Worker_init h wd fr color depth)) = np_array_empty
  /\ if should_get_depth w then
       if should_get_color w then
         color_depth_session env (height w) (width w) (frame_rate w) c
           (trace (snd (_pipeline_loop env iters (boot w c))))
       else
         color_image (self (snd (_pipeline_loop env iters (boot w c))))
         = color_image w
         /\ color_image (self (snd (Worker_run env sessions iters (boot w c))))
            = color_image w
         /\ depth_only_session env (frame_rate w) c
              (trace (snd (_pipeline_loop env iters (boot w c))))
     else True.
Proof.
  split; [reflexivity |].
  destruct (should_get_depth w) eqn:Hdepth; [| exact Logic.I].
  destruct (should_get_color w) eqn:Hcolor.
  - rewrite pipeline_loop_unfold.
    pose proof (color_depth_try env w c iters Hcolor Hdepth) as H.
    destruct (_pipeline_loop_try env iters (boot w c)) as [[[] | e |] st'];
      try destruct (is_Exception e); exact H.
  - assert (Hoff : color_off_with (color_image w) (boot w c))
      by (split; [exact Hcolor | reflexivity]).
    split; [| split].
    + apply (keeps_same _ _ _
               (color_pipeline_loop env (color_image w) iters) Hoff).
    + apply (keeps_same _ _ _
               (color_Worker_run env (color_image w) sessions iters) Hoff).
    + rewrite pipeline_loop_unfold.
      pose proof (depth_only_try env w c iters Hcolor Hdepth) as H.
      destruct (_pipeline_loop_try env iters (boot w c)) as [[[] | e |] st'];
        try destruct (is_Exception e); exact H.
Qed.


(** C8.  A getter, run in any state, returns: it neither raises nor
    loops, and it changes nothing.  What it returns is the slot; after
    construction and any history of writes to the frame store, the slot
    is the frame of the latest write to it, and the empty array when
    there was none. *)
Theorem getters_always_return_the_latest_frame
        (h w : Z) (fr : float) (color depth : bool)
        (ops : list store_op) (st : St) :
  get_color_image st = (Return (color_image (self st)), st)
  /\ get_depth_map st = (Return (depth_map (self st)), st)
  /\ get_pcd st = (Return (pcd (self st)), st)
  /\ fst (get_color_image
            (snd (apply_stores ops (Worker_init h w fr color depth))))
     = Return (latest_color ops np_array_empty)
  /\ fst (get_depth_map
            (snd (apply_stores ops (Worker_init h w fr color depth))))
     = Return (latest_depth ops np_array_empty)
  /\ fst (get_pcd
            (snd (apply_stores ops (Worker_init h w fr color depth))))
     = Return (latest_pcd ops np_array_empty).
Proof.
  destruct (apply_stores_slots ops (Worker_init h w fr color depth))
    as [Hc [Hd Hp]].
  unfold get_color_image, get_depth_map, get_pcd. simpl fst.
  rewrite Hc, Hd, Hp. repeat split; reflexivity.
Qed.

(** C10.  [Worker.__init__] has started the manager thread when it
    returns, and not the worker thread: the manager is started and
    running with the flag clear, the start is on the trace, and the
    manager's loop, run from there for one tick, reaches its five-second
    sleep unless [stop()] has been called by then. *)
Theorem constructor_starts_the_watchdog
        (env : Env) (h w : Z) (fr : float) (color depth : bool) :
  manager_started (manager (self (Worker_init h w fr color depth))) = true
  /\ running (manager (self (Worker_init h w fr color depth))) = true
  /\ needs_reconfigure (manager (self (Worker_init h w fr color depth))) = false
  /\ worker_started (self (Worker_init h w fr color depth)) = false
  /\ trace (Worker_init h w fr color depth)
     = [ev_thread_start "WorkerManager";
        ev_log INFO (text "Initializing camera pipeline worker.")]
  /\ filter is_sleep
       (trace (snd (WorkerManager_run env 1 (Worker_init h w fr color depth))))
     = (if stop_req env 0 then [] else [ev_sleep 5]).
Proof.
  repeat split.
  unfold WorkerManager_run, Worker_init. simpl.
  unfold bind, log, emit, read_running, tick, bind, get_self, ret. simpl.
  destruct (stop_req env 0); reflexivity.
Qed.

(** * Further properties of the worker *)

(** ** Settings are never written *)

Ltac settings_leaf :=
  intros; unfold same_settings in *; simpl; assumption.

Section Settings.

Variable env : Env.
Variable w0 : Worker.

Lemma settings_deliver (ps : list nat) :
  keeps (same_settings w0) (same_settings w0) (deliver ps).
Proof.
  induction ps as [| p ps IH]; simpl; keeps_auto ltac:(exact IH) settings_leaf.
Qed.

Lemma settings_drain (iters : nat) (oak : handle) :
  keeps (same_settings w0) (same_settings w0) (drain env iters oak).
Proof.
  induction iters as [| n IH]; simpl;
    keeps_auto ltac:(first [exact IH | apply settings_deliver]) settings_leaf.
Qed.

Lemma settings_pipeline_loop (iters : nat) :
  keeps (same_settings w0) (same_settings w0) (_pipeline_loop env iters).
Proof.
  unfold _pipeline_loop. cbv zeta.
  apply keeps_finally;
    [apply keeps_try_except with (E := same_settings w0) | | |];
    [ | intro e; fold (@keeps nat (same_settings w0) (same_settings w0)) | | | ];
    keeps_auto ltac:(apply settings_drain) settings_leaf.
Qed.

Lemma settings_Worker_run_loop (sessions iters : nat) :
  keeps (same_settings w0) (same_settings w0)
        (Worker_run_loop env sessions iters).
Proof.
  induction sessions as [| n IH]; simpl;
    keeps_auto ltac:(first [exact IH | apply settings_pipeline_loop])
               settings_leaf.
Qed.

Lemma settings_Worker_run (sessions iters : nat) :
  keeps (same_settings w0) (same_settings w0) (Worker_run env sessions iters).
Proof.
  unfold Worker_run.
  keeps_auto ltac:(apply settings_Worker_run_loop) settings_leaf.
Qed.

Lemma settings_WorkerManager_loop (fuel : nat) :
  keeps (same_settings w0) (same_settings w0) (WorkerManager_loop env fuel).
Proof.
  induction fuel as [| n IH]; simpl;
    keeps_auto ltac:(exact IH) settings_leaf.
Qed.

End Settings.

(** ** The worker never calls the callback *)

Ltac callback_leaf :=
  intros; unfold never_called_back, reconfigure_calls in *; simpl; assumption.

Section NoCallback.

Variable env : Env.

Lemma callback_deliver (ps : list nat) :
  keeps never_called_back never_called_back (deliver ps).
Proof.
  induction ps as [| p ps IH]; simpl; keeps_auto ltac:(exact IH) callback_leaf.
Qed.

Lemma callback_drain (iters : nat) (oak : handle) :
  keeps never_called_back never_called_back (drain env iters oak).
Proof.
  induction iters as [| n IH]; simpl;
    keeps_auto ltac:(first [exact IH | apply callback_deliver]) callback_leaf.
Qed.

Lemma callback_pipeline_loop (iters : nat) :
  keeps never_called_back never_called_back (_pipeline_loop env iters).
Proof.
  unfold _pipeline_loop. cbv zeta.
  apply keeps_finally;
    [apply keeps_try_except with (E := never_called_back) | | |];
    [ | intro e; fold (@keeps nat never_called_back never_called_back) | | | ];
    keeps_auto ltac:(apply callback_drain) callback_leaf.
Qed.

Lemma callback_Worker_run_loop (sessions iters : nat) :
  keeps never_called_back never_called_back
        (Worker_run_loop env sessions iters).
Proof.
  induction sessions as [| n IH]; simpl;
    keeps_auto ltac:(first [exact IH | apply callback_pipeline_loop])
               callback_leaf.
Qed.

Lemma callback_Worker_run (sessions iters : nat) :
  keeps never_called_back never_called_back (Worker_run env sessions iters).
Proof.
  unfold Worker_run.
  keeps_auto ltac:(apply callback_Worker_run_loop) callback_leaf.
Qed.

End NoCallback.

(** ** The watchdog *)

Section Watchdog.

Variable env : Env.

(** With the flag clear, a tick is a log line and a sleep. *)
Lemma idle_tick (st : St) :
  needs_reconfigure (manager (self st)) = false ->
  WorkerManager_run_body env st
  = (Return tt,
     push (ev_sleep 5)
          (push (ev_log DEBUG (text "Checking if worker must be reconfigured."))
                st)).
Proof.
  intros Hflag.
  unfold WorkerManager_run_body, bind, log, emit, get_self, ret. simpl.
  rewrite Hflag. reflexivity.
Qed.

Lemma read_running_keeps_flag (st : St) :
  needs_reconfigure (manager (self (snd (read_running env st))))
  = needs_reconfigure (manager (self st))
  /\ trace (snd (read_running env st))
     = (if stop_req env (clock st)
        then ev_log DEBUG (text "Stopping worker manager.") :: trace st
        else trace st)
  /\ clock (snd (read_running env st)) = S (clock st).
Proof.
  unfold read_running, bind, tick, get_self, ret. simpl.
  destruct (stop_req env (clock st)); simpl; auto.
Qed.

(** While the flag is clear the watchdog makes no external call at all,
    and it does not raise. *)
Lemma idle_watchdog_loop (fuel : nat) (st : St) :
  needs_reconfigure (manager (self st)) = false ->
  calls_newest_first (trace (snd (WorkerManager_loop env fuel st)))
  = calls_newest_first (trace st)
  /\ needs_reconfigure
       (manager (self (snd (WorkerManager_loop env fuel st)))) = false
  /\ (fst (WorkerManager_loop env fuel st) = Return tt \/
      fst (WorkerManager_loop env fuel st) = Diverge).
Proof.
  revert st. induction fuel as [| n IH]; intros st Hflag.
  - simpl. auto.
  - destruct (read_running_returns env st) as (b & st' & Hr & Hc & Hb).
    pose proof (read_running_keeps_flag st) as (Hf & Ht & _).
    rewrite Hr in Hf, Ht. simpl in Hf, Ht.
    assert (Hcalls : calls_newest_first (trace st')
                     = calls_newest_first (trace st)).
    { rewrite Ht. destruct (stop_req env (clock st)); reflexivity. }
    assert (Heq : WorkerManager_loop env (S n) st
                  = if b
                    then WorkerManager_loop env n
                           (push (ev_sleep 5)
                              (push (ev_log DEBUG
                                       (text "Checking if worker must be reconfigured."))
                                    st'))
                    else (Return tt, st')).
    { cbn [WorkerManager_loop]. unfold bind at 1. rewrite Hr.
      destruct b; [| reflexivity].
      unfold bind at 1. rewrite idle_tick by congruence. reflexivity. }
    rewrite Heq. destruct b.
    + match goal with
      | |- context [WorkerManager_loop env n ?s] =>
          destruct (IH s) as (H1 & H2 & H3); [simpl; congruence |]
      end.
      rewrite H1. split; [exact Hcalls | auto].
    + simpl. repeat split; auto. congruence.
Qed.

Lemma reconfigure_calls_of_calls (tr : list event) :
  reconfigure_calls tr
  = List.length (filter (fun nc => is_reconfigure (snd nc))
                        (calls_newest_first tr)).
Proof.
  unfold reconfigure_calls.
  induction tr as [| ev tr IH]; simpl; [reflexivity |].
  destruct ev; simpl; try exact IH.
  destruct (is_reconfigure c); simpl; rewrite IH; reflexivity.
Qed.

(** With the flag set, nobody stopping and the callback returning, every
    tick is a callback and a sleep. *)
Lemma busy_watchdog_loop (fuel : nat) (st : St) :
  (forall c, stop_req env c = false) ->
  (forall c, fault env c = None) ->
  running (manager (self st)) = true ->
  needs_reconfigure (manager (self st)) = true ->
  fst (WorkerManager_loop env fuel st) = Diverge
  /\ reconfigure_calls (trace (snd (WorkerManager_loop env fuel st)))
     = reconfigure_calls (trace st) + fuel
  /\ sleeps (trace (snd (WorkerManager_loop env fuel st)))
     = sleeps (trace st) + fuel
  /\ self (snd (WorkerManager_loop env fuel st)) = self st.
Proof.
  intros Hstop Hfault. revert st.
  induction fuel as [| n IH]; intros st Hrun Hflag.
  - simpl. repeat split; lia.
  - assert (Heq : WorkerManager_loop env (S n) st
                  = WorkerManager_loop env n
                      (mkSt (self st) (S (S (clock st)))
                         (ev_sleep 5
                          :: ev_call (S (clock st)) reconfigure_callback
                          :: ev_log DEBUG
                               (text "Worker needs reconfiguring; reconfiguring worker.")
                          :: ev_log DEBUG
                               (text "Checking if worker must be reconfigured.")
                          :: trace st))).
    { cbn [WorkerManager_loop].
      unfold bind at 1, read_running, bind, tick, get_self, ret. simpl.
      rewrite Hstop. simpl. rewrite Hrun.
      unfold WorkerManager_run_body, bind, log, emit, get_self, extcall, ret.
      simpl. rewrite Hflag. simpl. rewrite Hfault. reflexivity. }
    rewrite Heq.
    match goal with
    | |- context [WorkerManager_loop env n ?s] =>
        destruct (IH s Hrun Hflag) as (H1 & H2 & H3 & H4)
    end.
    rewrite H1, H2, H3, H4. unfold reconfigure_calls, sleeps. simpl.
    repeat split; lia.
Qed.

(** Once [stop()] is called the watchdog loop ends. *)
Lemma watchdog_loop_returns (n k : nat) (st : St) :
  stopped_from env n -> n <= clock st + k ->
  fst (WorkerManager_loop env (S k) st) <> Diverge.
Proof.
  intros Hstop. revert st. induction k as [| k IH]; intros st Hn;
    cbn [WorkerManager_loop]; unfold bind at 1;
    destruct (read_running_returns env st) as (b & st' & Hr & Hc & Hb);
    rewrite Hr.
  - rewrite Hb by (apply Hstop; lia). discriminate.
  - destruct b; [| discriminate].
    apply (bind_returns (clock st')); [| | unfold at_least; lia |].
    + unfold WorkerManager_run_body.
      keeps_auto ltac:(idtac) clock_leaf.
    + unfold WorkerManager_run_body.
      keeps_auto ltac:(idtac) ltac:(idtac).
    + intros _ st1 H1. apply IH. unfold at_least in H1. lia.
Qed.

End Watchdog.

(** ** Stopping *)

Lemma bind_Return_inv {A B : Type} (m : M A) (k : A -> M B)
      (st st2 : St) (b : B) :
  bind m k st = (Return b, st2) ->
  exists a st1, m st = (Return a, st1) /\ k a st1 = (Return b, st2).
Proof.
  unfold bind. destruct (m st) as [[a | e |] st1]; intros H;
    try discriminate.
  exists a, st1. split; [reflexivity | exact H].
Qed.

Section Stopped.

Variable env : Env.

Lemma read_running_value (st st' : St) (b : bool) :
  read_running env st = (Return b, st') ->
  b = running (manager (self st')).
Proof.
  unfold read_running, bind, tick, get_self, ret. simpl.
  destruct (stop_req env (clock st)); simpl; intros H;
    inversion H; reflexivity.
Qed.

(** The outer loop is left only through a false [running]. *)
Lemma Worker_run_loop_ends_stopped (sessions iters : nat) (st : St) :
  fst (Worker_run_loop env sessions iters st) = Return tt ->
  is_stopped (snd (Worker_run_loop env sessions iters st)).
Proof.
  revert st. induction sessions as [| n IH]; intros st H.
  - discriminate.
  - destruct (Worker_run_loop env (S n) iters st) as [r st2] eqn:E.
    simpl in H. subst r. cbn [Worker_run_loop] in E.
    apply bind_Return_inv in E. destruct E as (b & st1 & Hr & Hk).
    destruct b.
    + apply bind_Return_inv in Hk. destruct Hk as (f & st1' & _ & Hl).
      specialize (IH st1'). rewrite Hl in IH. apply IH. reflexivity.
    + inversion Hk. subst st2. unfold is_stopped. simpl.
      symmetry. apply (read_running_value st st1 false Hr).
Qed.

(** A stopped worker reads [running] and changes nothing. *)
Lemma read_running_stopped (w : Worker) (c : nat) (tr : list event) :
  running (manager w) = false ->
  exists tr', read_running env (mkSt w c tr) = (Return false, mkSt w (S c) tr')
              /\ calls_newest_first tr' = calls_newest_first tr
              /\ filter is_sleep tr' = filter is_sleep tr.
Proof.
  intros Hrun.
  destruct w as [h wd fr col dep ci dm pc [flag run ms] ws].
  simpl in Hrun. subst run.
  unfold read_running, bind, tick, get_self, ret. simpl.
  destruct (stop_req env c); simpl; eexists; repeat split; reflexivity.
Qed.

End Stopped.

(** ** Sessions are opened once and closed once *)

Ltac counts_leaf :=
  intros; unfold session_counts, session_opens, session_closes in *;
  simpl; assumption.

Section SessionCounts.

Variable env : Env.
Variables opened closed : nat.

Lemma counts_deliver (ps : list nat) :
  keeps (session_counts opened closed) (session_counts opened closed)
        (deliver ps).
Proof.
  induction ps as [| p ps IH]; simpl; keeps_auto ltac:(exact IH) counts_leaf.
Qed.

Lemma counts_drain (iters : nat) (oak : handle) :
  keeps (session_counts opened closed) (session_counts opened closed)
        (drain env iters oak).
Proof.
  induction iters as [| n IH]; simpl;
    keeps_auto ltac:(first [exact IH | apply counts_deliver]) counts_leaf.
Qed.

Lemma counts_session_body (iters : nat) (oak : handle) :
  keeps (session_counts opened closed) (session_counts opened closed)
        (session_body env iters oak).
Proof.
  unfold session_body. keeps_auto ltac:(apply counts_drain) counts_leaf.
Qed.

End SessionCounts.

(** The [try] block, up to the body of the [with]. *)
Lemma pipeline_loop_try_unfold (env : Env) (iters : nat) (st : St) :
  _pipeline_loop_try env iters st
  = match fault env (clock st) with
    | Some e =>
        (Raise e,
         later (push (ev_raise e)
                  (push (ev_call (clock st) OakCamera_enter)
                     (push (ev_log DEBUG
                              (text "Initializing worker image pipeline."))
                           st))))
    | None =>
        finally (session_body env iters (clock st))
                (_ <- extcall env (OakCamera_exit (clock st)) ;; ret tt)
                (later (push (ev_call (clock st) OakCamera_enter)
                          (push (ev_log DEBUG
                                   (text "Initializing worker image pipeline."))
                                st)))
    end.
Proof.
  unfold _pipeline_loop_try, with_OakCamera, bind at 1 2, log, emit, extcall at 1.
  simpl. destruct (fault env (clock st)); reflexivity.
Qed.

(** [__exit__] after the body: one more call, which may raise. *)
Lemma exit_outcome (env : Env) (oak : handle) (st : St) :
  (_ <- extcall env (OakCamera_exit oak) ;; ret tt) st
  = match fault env (clock st) with
    | Some e =>
        (Raise e, later (push (ev_raise e)
                           (push (ev_call (clock st) (OakCamera_exit oak)) st)))
    | None =>
        (Return tt, later (push (ev_call (clock st) (OakCamera_exit oak)) st))
    end.
Proof.
  unfold bind, extcall, ret. destruct (fault env (clock st)); reflexivity.
Qed.

Lemma session_counts_try (env : Env) (w : Worker) (c iters : nat) :
  session_opens
    (trace (snd (_pipeline_loop_try env iters (boot w c)))) = 1
  /\ session_closes
       (trace (snd (_pipeline_loop_try env iters (boot w c))))
     = match fst (_pipeline_loop_try env iters (boot w c)) with
       | Diverge => 0
       | _ => match fault env c with Some _ => 0 | None => 1 end
       end.
Proof.
  rewrite pipeline_loop_try_unfold. simpl.
  destruct (fault env c) as [e |]; simpl; [split; reflexivity |].
  unfold finally.
  match goal with
  | |- context [session_body env iters c ?s] =>
      pose proof (counts_session_body env 1 0 iters c s
                    (conj eq_refl eq_refl)) as H;
      unfold post in H;
      destruct (session_body env iters c s) as [[[] | e |] st']
  end; simpl in H; destruct H as [Ho Hc]; simpl;
    rewrite ?exit_outcome;
    try (destruct (fault env (clock st')); simpl;
         unfold session_opens, session_closes in *; simpl;
         rewrite Ho, Hc; split; reflexivity).
Qed.

(** ** After a raise a session only closes *)

Lemma unraised_fails_fast (tr : list event) :
  raised tr = false -> fails_fast tr = true.
Proof.
  induction tr as [| ev tr IH]; simpl; [reflexivity |].
  intros H. unfold raised in *. simpl in H.
  apply orb_false_elim in H. destruct H as [_ H].
  rewrite H. simpl. apply IH, H.
Qed.

Lemma unraised_push (ev : event) (st : St) :
  is_raise ev = false -> unraised st -> unraised (push ev st).
Proof.
  intros Hev H. unfold unraised, raised in *. simpl. rewrite Hev. exact H.
Qed.

Lemma failed_fast_push (ev : event) (st : St) :
  closes_only ev = true -> failed_fast st -> failed_fast (push ev st).
Proof.
  intros Hev [Hr Hf]. split.
  - unfold raised in *. simpl. rewrite Hr. apply orb_true_r.
  - cbn [fails_fast trace push]. rewrite Hr, Hev, Hf. reflexivity.
Qed.

Lemma failed_fast_raise (e : exn) (ev : event) (st : St) :
  is_raise ev = false -> unraised st ->
  failed_fast (push (ev_raise e) (push ev st)).
Proof.
  intros Hev H. unfold unraised in H. split.
  - reflexivity.
  - assert (Hev' : raised (ev :: trace st) = false)
      by (unfold raised in *; simpl; rewrite Hev; exact H).
    cbn [fails_fast trace push]. rewrite Hev', H. simpl.
    apply unraised_fails_fast. exact H.
Qed.

Lemma failed_fast_throw (e : exn) (st : St) :
  unraised st -> failed_fast (push (ev_raise e) st).
Proof.
  intros H. unfold unraised in H. split.
  - reflexivity.
  - cbn [fails_fast trace push]. rewrite H. simpl.
    apply unraised_fails_fast. exact H.
Qed.

Ltac fast_leaf :=
  intros;
  repeat match goal with
         | |- unraised (later ?s) => change (unraised s)
         | |- failed_fast (later ?s) => change (failed_fast s)
         | |- unraised (with_self _ ?s) => change (unraised s)
         | |- failed_fast (with_self _ ?s) => change (failed_fast s)
         end;
  first [ assumption
        | apply failed_fast_raise; [reflexivity | assumption]
        | apply failed_fast_throw; assumption
        | apply unraised_push; [reflexivity | assumption]
        | apply failed_fast_push;
          [reflexivity
          | first [assumption | apply failed_fast_push;
                                [reflexivity | assumption]]] ].

Section FailsFast.

Variable env : Env.

Lemma fast_deliver (ps : list nat) :
  keeps unraised failed_fast (deliver ps).
Proof.
  induction ps as [| p ps IH]; simpl; keeps_auto ltac:(exact IH) fast_leaf.
Qed.

Lemma fast_drain (iters : nat) (oak : handle) :
  keeps unraised failed_fast (drain env iters oak).
Proof.
  induction iters as [| n IH]; simpl;
    keeps_auto ltac:(first [exact IH | apply fast_deliver]) fast_leaf.
Qed.

Lemma fast_pipeline_loop_try (iters : nat) :
  keeps unraised failed_fast (_pipeline_loop_try env iters).
Proof.
  unfold _pipeline_loop_try.
  keeps_auto ltac:(apply fast_drain) fast_leaf.
Qed.

End FailsFast.

(** ** With depth off *)

Ltac depth_leaf :=
  intros; unfold depth_off_with in *; simpl; assumption.

Ltac skip_when_off H :=
  intros st H; unfold bind, get_self;
  let Hoff := fresh "Hoff" in
  pose proof H as Hoff; destruct Hoff as [Hoff _];
  rewrite Hoff; exact H.

Section DepthOff.

Variable env : Env.
Variables dm pc : ndarray.

Lemma depth_add_depth_node (oak : handle) (color : option handle) :
  keeps (depth_off_with dm pc) (depth_off_with dm pc)
        (_add_depth_node env oak color).
Proof. unfold _add_depth_node. skip_when_off H. Qed.

Lemma depth_add_pc_node (oak : handle) (color stereo : option handle) :
  keeps (depth_off_with dm pc) (depth_off_with dm pc)
        (_add_pc_node env oak color stereo).
Proof. unfold _add_pc_node. skip_when_off H. Qed.

Lemma depth_handle_depth_output (oak : handle) :
  keeps (depth_off_with dm pc) (depth_off_with dm pc)
        (_handle_depth_output env oak).
Proof. unfold _handle_depth_output. skip_when_off H. Qed.

Lemma depth_handle_pcd_output (oak : handle) :
  keeps (depth_off_with dm pc) (depth_off_with dm pc)
        (_handle_pcd_output env oak).
Proof. unfold _handle_pcd_output. skip_when_off H. Qed.

Lemma depth_drain (iters : nat) (oak : handle) :
  keeps (depth_off_with dm pc) (depth_off_with dm pc) (drain env iters oak).
Proof.
  induction iters as [| n IH]; simpl;
    keeps_auto
      ltac:(first [exact IH | apply depth_handle_depth_output
                  | apply depth_handle_pcd_output])
      depth_leaf.
Qed.

Lemma depth_pipeline_loop (iters : nat) :
  keeps (depth_off_with dm pc) (depth_off_with dm pc)
        (_pipeline_loop env iters).
Proof.
  unfold _pipeline_loop. cbv zeta.
  apply keeps_finally;
    [apply keeps_try_except with (E := depth_off_with dm pc) | | |];
    [ | intro e;
        fold (@keeps nat (depth_off_with dm pc) (depth_off_with dm pc)) | | | ];
    keeps_auto
      ltac:(first [apply depth_drain | apply depth_add_depth_node
                  | apply depth_add_pc_node])
      depth_leaf.
Qed.

Lemma depth_Worker_run_loop (sessions iters : nat) :
  keeps (depth_off_with dm pc) (depth_off_with dm pc)
        (Worker_run_loop env sessions iters).
Proof.
  induction sessions as [| n IH]; simpl;
    keeps_auto ltac:(first [exact IH | apply depth_pipeline_loop]) depth_leaf.
Qed.

Lemma depth_Worker_run (sessions iters : nat) :
  keeps (depth_off_with dm pc) (depth_off_with dm pc)
        (Worker_run env sessions iters).
Proof.
  unfold Worker_run.
  keeps_auto ltac:(apply depth_Worker_run_loop) depth_leaf.
Qed.

End DepthOff.

(** ** With colour and depth off *)



Section BothOff.

Variable env : Env.











End BothOff.

(** ** The point-cloud handler *)

Lemma last_cons_default {T : Type} (l : list T) (x d d' : T) :
  last (x :: l) d = last (x :: l) d'.
Proof.
  revert x. induction l as [| y l IH]; intros x; [reflexivity |].
  change (last (y :: l) d = last (y :: l) d'). apply IH.
Qed.

Lemma deliver_latest (ps : list nat) (st : St) :
  fst (deliver ps st) = Return tt
  /\ pcd (self (snd (deliver ps st)))
     = last (map points ps) (pcd (self st))
  /\ color_image (self (snd (deliver ps st))) = color_image (self st)
  /\ depth_map (self (snd (deliver ps st))) = depth_map (self st)
  /\ calls_newest_first (trace (snd (deliver ps st)))
     = calls_newest_first (trace st).
Proof.
  revert st. induction ps as [| p ps IH]; intros st.
  - simpl. auto.
  - cbn [deliver]. unfold bind at 1 2 3 4 5.
    unfold _set_current_pcd, bind, log, emit, modify_self. simpl.
    match goal with
    | |- context [deliver ps ?s] => destruct (IH s) as (H1 & H2 & H3 & H4 & H5)
    end.
    rewrite H1, H2, H3, H4, H5. simpl.
    repeat split; try reflexivity.
    destruct ps as [| q ps]; [reflexivity |].
    cbn [map]. apply (last_cons_default (map points ps)).
Qed.

(** * What else the worker's code shows *)

(** X1.  Once [stop()] has been called, say from instant [n] on,
    [Worker.run] ends within [n + 1] rounds of either loop, provided the
    external calls it makes come back: it returns, and [running] is false
    when it does; or it is ended by what an external call raised and
    [except Exception] does not catch. *)
Theorem worker_thread_ends_after_stop (env : Env) (n : nat) (st : St) :
  stopped_from env n ->
  match fst (Worker_run env (S n) (S n) st) with
  | Return _ =>
      running (manager (self (snd (Worker_run env (S n) (S n) st)))) = false
  | Raise e => is_Exception e = false /\ (exists k, fault env k = Some e)
  | Diverge => False
  end.
Proof.
  intros Hstop.
  pose proof (Worker_run_returns env n st Hstop) as Hret.
  pose proof (ro_Worker_run env (S n) (S n) st) as Hro.
  pose proof (Worker_run_loop_ends_stopped env (S n) (S n) st) as Hloop.
  destruct (fst (Worker_run env (S n) (S n) st)) as [[] | e |] eqn:Hout.
  - unfold Worker_run, finally, log, emit in *.
    destruct (Worker_run_loop env (S n) (S n) st) as [[[] | e |] st'];
      simpl in *; try discriminate.
    apply Hloop. reflexivity.
  - exact Hro.
  - apply Hret. reflexivity.
Qed.

Lemma worker_thread_ends_after_stop_witness :
  match fst (Worker_run (stops_at 2) 3 3 (fresh_worker true true)) with
  | Return _ =>
      running
        (manager (self (snd (Worker_run (stops_at 2) 3 3
                               (fresh_worker true true))))) = false
  | Raise e =>
      is_Exception e = false /\ (exists k, fault (stops_at 2) k = Some e)
  | Diverge => False
  end.
Proof.
  apply (worker_thread_ends_after_stop (stops_at 2) 2 (fresh_worker true true)).
  intros c Hc. apply Nat.leb_le. exact Hc.
Defined.

(** X2.  Once [stop()] has been called, from instant [n] on, the
    watchdog's [run] ends too, within [n + 1] ticks: it returns, or a
    raising callback has ended it before. *)
Theorem watchdog_ends_after_stop (env : Env) (n : nat) (st : St) :
  stopped_from env n ->
  match fst (WorkerManager_run env (S n) st) with
  | Diverge => False
  | _ => True
  end.
Proof.
  intros Hstop.
  pose proof (watchdog_loop_returns env n n
                (push (ev_log DEBUG (text "Starting worker manager.")) st)
                Hstop ltac:(simpl; lia)) as H.
  change (WorkerManager_run env (S n) st)
    with (WorkerManager_loop env (S n)
            (push (ev_log DEBUG (text "Starting worker manager.")) st)).
  destruct (fst (WorkerManager_loop env (S n)
                   (push (ev_log DEBUG (text "Starting worker manager.")) st)));
    [exact Logic.I | exact Logic.I | apply H; reflexivity].
Qed.

Lemma watchdog_ends_after_stop_witness :
  match fst (WorkerManager_run (stops_at 2) 3 (flagged_worker true true)) with
  | Diverge => False
  | _ => True
  end.
Proof.
  apply (watchdog_ends_after_stop (stops_at 2) 2 (flagged_worker true true)).
  intros c Hc. apply Nat.leb_le. exact Hc.
Defined.

(** X3.  While [needs_reconfigure] is set, nobody stops the manager and
    the callback returns, the watchdog calls the callback on every tick:
    after [k] ticks it has called it [k] times and slept [k] times, it is
    still looping, and it has written nothing to the worker, the flag
    included. *)
Theorem watchdog_calls_back_on_every_tick
        (env : Env) (w : Worker) (c k : nat) :
  (forall i, stop_req env i = false) ->
  (forall i, fault env i = None) ->
  running (manager w) = true ->
  needs_reconfigure (manager w) = true ->
  fst (WorkerManager_run env k (boot w c)) = Diverge
  /\ reconfigure_calls (trace (snd (WorkerManager_run env k (boot w c)))) = k
  /\ sleeps (trace (snd (WorkerManager_run env k (boot w c)))) = k
  /\ self (snd (WorkerManager_run env k (boot w c))) = w.
Proof.
  intros Hstop Hfault Hrun Hflag.
  unfold WorkerManager_run, bind at 1 2 3 4, log, emit. simpl.
  match goal with
  | |- context [WorkerManager_loop env k ?s] =>
      destruct (busy_watchdog_loop env k s Hstop Hfault Hrun Hflag)
        as (H1 & H2 & H3 & H4)
  end.
  rewrite H1, H2, H3, H4. repeat split; reflexivity.
Qed.

Lemma watchdog_calls_back_on_every_tick_witness :
  fst (WorkerManager_run calm 4 (boot (self (flagged_worker true true)) 0))
  = Diverge
  /\ reconfigure_calls
       (trace (snd (WorkerManager_run calm 4
                      (boot (self (flagged_worker true true)) 0)))) = 4
  /\ sleeps
       (trace (snd (WorkerManager_run calm 4
                      (boot (self (flagged_worker true true)) 0)))) = 4
  /\ self (snd (WorkerManager_run calm 4
                  (boot (self (flagged_worker true true)) 0)))
     = self (flagged_worker true true).
Proof.
  apply (watchdog_calls_back_on_every_tick
           calm (self (flagged_worker true true)) 0 4); reflexivity.
Defined.

(** X4.  Take a worker as its constructor leaves it, let it run against
    any device for any time, and then let the watchdog run against any
    environment for any time: the watchdog makes no external call, so the
    reconfigure callback is not called, and the watchdog does not end in a
    raise. *)
Theorem callback_is_never_reached
        (env env' : Env) (h wd : Z) (fr : float) (color depth : bool)
        (sessions iters fuel : nat) :
  reconfigure_calls
    (trace (snd (WorkerManager_run env' fuel
                   (snd (Worker_run env sessions iters
                           (Worker_init h wd fr color depth)))))) = 0
  /\ match fst (WorkerManager_run env' fuel
                  (snd (Worker_run env sessions iters
                          (Worker_init h wd fr color depth)))) with
     | Raise _ => False
     | _ => True
     end.
Proof.
  set (st1 := snd (Worker_run env sessions iters
                     (Worker_init h wd fr color depth))).
  assert (Hflag : flag_is false st1).
  { apply (keeps_same (flag_is false)); [apply flag_Worker_run | reflexivity]. }
  assert (Hnone : never_called_back st1).
  { apply (keeps_same never_called_back);
      [apply callback_Worker_run | reflexivity]. }
  unfold WorkerManager_run, bind at 1 2, log, emit. simpl.
  match goal with
  | |- context [WorkerManager_loop env' fuel ?s] =>
      destruct (idle_watchdog_loop env' fuel s Hflag) as (H1 & _ & H3)
  end.
  split.
  - rewrite reconfigure_calls_of_calls, H1. simpl.
    rewrite <- reconfigure_calls_of_calls. exact Hnone.
  - destruct H3 as [H3 | H3]; rewrite H3; exact Logic.I.
Qed.

(** X5.  After [stop()] nothing more happens.  On a worker whose
    [running] is false, [Worker.run] returns at its first check: it opens
    no session and makes no external call; the watchdog's [run] returns
    at its first check: it neither calls the callback nor sleeps; neither
    writes to the worker; and another [stop()] changes nothing. *)
Theorem stopped_worker_does_nothing
        (env : Env) (w : Worker) (c sessions iters fuel : nat) :
  running (manager w) = false ->
  (fst (Worker_run env (S sessions) iters (boot w c)) = Return tt
   /\ self (snd (Worker_run env (S sessions) iters (boot w c))) = w
   /\ calls (trace (snd (Worker_run env (S sessions) iters (boot w c)))) = [])
  /\ (fst (WorkerManager_run env (S fuel) (boot w c)) = Return tt
      /\ self (snd (WorkerManager_run env (S fuel) (boot w c))) = w
      /\ calls (trace (snd (WorkerManager_run env (S fuel) (boot w c)))) = []
      /\ sleeps (trace (snd (WorkerManager_run env (S fuel) (boot w c)))) = 0)
  /\ fst (Worker_stop (boot w c)) = Return tt
  /\ self (snd (Worker_stop (boot w c))) = w.
Proof.
  intros Hrun. split; [| split].
  - destruct (read_running_stopped env w c [] Hrun) as (tr' & Hr & Hcalls & _).
    assert (Heq : Worker_run env (S sessions) iters (boot w c)
                  = (Return tt,
                     mkSt w (S c)
                          (ev_log INFO (text "Stopped and exited worker thread.")
                           :: tr'))).
    { unfold Worker_run, finally. cbn [Worker_run_loop].
      unfold bind at 1. unfold boot. rewrite Hr. reflexivity. }
    rewrite Heq. simpl. repeat split.
    unfold calls. simpl. rewrite Hcalls. reflexivity.
  - destruct (read_running_stopped env w c
                [ev_log DEBUG (text "Starting worker manager.")] Hrun)
      as (tr' & Hr & Hcalls & Hsleep).
    assert (Heq : WorkerManager_run env (S fuel) (boot w c)
                  = (Return tt, mkSt w (S c) tr')).
    { unfold WorkerManager_run. unfold bind at 1. unfold log, emit, boot.
      cbn [WorkerManager_loop trace self clock]. unfold bind at 1.
      rewrite Hr. reflexivity. }
    rewrite Heq. simpl. repeat split.
    + unfold calls. rewrite Hcalls. reflexivity.
    + unfold sleeps. rewrite Hsleep. reflexivity.
  - destruct w as [h wd fr col dep ci dm pc [flag run ms] ws].
    simpl in Hrun. subst run. split; reflexivity.
Qed.

Lemma stopped_worker_does_nothing_witness :
  (fst (Worker_run unreachable_device 3 2
          (boot (self (snd (Worker_stop (fresh_worker true true)))) 0))
   = Return tt
   /\ self (snd (Worker_run unreachable_device 3 2
                   (boot (self (snd (Worker_stop (fresh_worker true true)))) 0)))
      = self (snd (Worker_stop (fresh_worker true true)))
   /\ calls (trace (snd (Worker_run unreachable_device 3 2
                          (boot (self (snd (Worker_stop (fresh_worker true true))))
                                0)))) = [])
  /\ (fst (WorkerManager_run unreachable_device 4
             (boot (self (snd (Worker_stop (fresh_worker true true)))) 0))
      = Return tt
      /\ self (snd (WorkerManager_run unreachable_device 4
                      (boot (self (snd (Worker_stop (fresh_worker true true))))
                            0)))
         = self (snd (Worker_stop (fresh_worker true true)))
      /\ calls (trace (snd (WorkerManager_run unreachable_device 4
                             (boot (self (snd (Worker_stop
                                                 (fresh_worker true true))))
                                   0)))) = []
      /\ sleeps (trace (snd (WorkerManager_run unreachable_device 4
                              (boot (self (snd (Worker_stop
                                                  (fresh_worker true true))))
                                    0)))) = 0)
  /\ fst (Worker_stop
            (boot (self (snd (Worker_stop (fresh_worker true true)))) 0))
     = Return tt
  /\ self (snd (Worker_stop
                  (boot (self (snd (Worker_stop (fresh_worker true true)))) 0)))
     = self (snd (Worker_stop (fresh_worker true true))).
Proof.
  apply (stopped_worker_does_nothing
           unreachable_device
           (self (snd (Worker_stop (fresh_worker true true)))) 0 2 2 3).
  reflexivity.
Defined.

(** X6.  Neither thread writes the worker's settings: after any run of
    the worker and after any run of the watchdog, height, width, frame
    rate and the two capture switches are what they were, and so are the
    marks of which thread has been started. *)
Theorem settings_are_never_written
        (env env' : Env) (w : Worker) (c sessions iters fuel : nat) :
  same_settings w (snd (Worker_run env sessions iters (boot w c)))
  /\ same_settings w (snd (WorkerManager_run env' fuel (boot w c))).
Proof.
  assert (H0 : same_settings w (boot w c)) by (repeat split).
  split.
  - apply (keeps_same _ _ _ (settings_Worker_run env w sessions iters) H0).
  - apply (keeps_same (same_settings w)); [| exact H0].
    unfold WorkerManager_run.
    keeps_auto ltac:(apply settings_WorkerManager_loop) settings_leaf.
Qed.

(** X7.  An invocation of [_pipeline_loop] opens the device once, and
    closes it once exactly when the open succeeded and the session is
    over, whether the session ended by [stop()] or by a raise while
    building or draining; it never opens a second session. *)
Theorem every_session_is_opened_once_and_closed
        (env : Env) (w : Worker) (c iters : nat) :
  session_opens (trace (snd (_pipeline_loop env iters (boot w c)))) = 1
  /\ session_closes (trace (snd (_pipeline_loop env iters (boot w c))))
     = match fst (_pipeline_loop env iters (boot w c)) with
       | Diverge => 0
       | _ => match fault env c with Some _ => 0 | None => 1 end
       end.
Proof.
  rewrite pipeline_loop_unfold.
  pose proof (session_counts_try env w c iters) as [Ho Hc].
  destruct (_pipeline_loop_try env iters (boot w c)) as [[[] | e |] st'];
    try destruct (is_Exception e); simpl in *; split; assumption.
Qed.

(** X8.  A session fails fast.  In the trace of an invocation of
    [_pipeline_loop], whatever comes after a raise is a log line, the
    call that closes the device, or the raise of that close: after the
    first failure the session builds nothing more and polls nothing
    more. *)
Theorem a_session_fails_fast (env : Env) (w : Worker) (c iters : nat) :
  fails_fast (trace (snd (_pipeline_loop env iters (boot w c)))) = true.
Proof.
  rewrite pipeline_loop_unfold.
  pose proof (fast_pipeline_loop_try env iters (boot w c) eq_refl) as H.
  unfold post in H.
  destruct (_pipeline_loop_try env iters (boot w c)) as [[[] | e |] st'];
    simpl in H.
  - apply unraised_fails_fast. exact H.
  - destruct (is_Exception e).
    + apply (failed_fast_push
               (ev_log DEBUG (text "Exiting worker camera loop."))
               (push (ev_log DEBUG (failure_count 1 e)) st') eq_refl).
      apply (failed_fast_push (ev_log DEBUG (failure_count 1 e)) st'
                              eq_refl H).
    + apply (failed_fast_push
               (ev_log DEBUG (text "Exiting worker camera loop."))
               st' eq_refl H).
  - apply unraised_fails_fast. exact H.
Qed.

(** X9.  With depth capture off, the depth map and the point cloud are
    after any run of the worker what they were before, and the run has
    made none of the calls of a depth pipeline: no mono camera, no stereo
    node, no point-cloud node, no callback registration, no resize, no
    poll. *)
Theorem depth_off_leaves_depth_alone
        (env : Env) (w : Worker) (c sessions iters : nat) :
  if should_get_depth w then True
  else
    depth_map (self (snd (Worker_run env sessions iters (boot w c))))
    = depth_map w
    /\ pcd (self (snd (Worker_run env sessions iters (boot w c)))) = pcd w
    /\ existsb depth_event
         (trace (snd (Worker_run env sessions iters (boot w c)))) = false.
Proof.
  destruct (should_get_depth w) eqn:Hd; [exact Logic.I |].
  assert (H0 : depth_off_with (depth_map w) (pcd w) (boot w c))
    by (repeat split; assumption).
  pose proof (keeps_same _ _ _
                (depth_Worker_run env (depth_map w) (pcd w) sessions iters) H0)
    as (_ & H1 & H2 & H3).
  repeat split; assumption.
Qed.


(** X11.  The point-cloud handler.  With depth on it polls the device
    once.  Whatever the poll has handed to the callback stays, also when
    the poll goes on to raise: the point-cloud slot holds the points of
    the last packet delivered during that poll, and what it held before
    if none was delivered.  The handler raises exactly when the poll
    does.  The colour and depth slots are not touched.  With depth off
    the handler does nothing. *)
Theorem pcd_handler_keeps_the_last_packet
        (env : Env) (w : Worker) (c : nat) (oak : handle) :
  if should_get_depth w then
    fst (_handle_pcd_output env oak (boot w c))
    = match fault env c with
      | Some e => Raise e
      | None => Return tt
      end
    /\ pcd (self (snd (_handle_pcd_output env oak (boot w c))))
       = last (map points (poll_src env c)) (pcd w)
    /\ calls (trace (snd (_handle_pcd_output env oak (boot w c))))
       = [(c, oak_poll)]
    /\ color_image (self (snd (_handle_pcd_output env oak (boot w c))))
       = color_image w
    /\ depth_map (self (snd (_handle_pcd_output env oak (boot w c))))
       = depth_map w
  else _handle_pcd_output env oak (boot w c) = (Return tt, boot w c).
Proof.
  assert (Heq : _handle_pcd_output env oak (boot w c)
                = if should_get_depth w
                  then
                    match deliver (poll_src env c)
                                  (later (push (ev_call c oak_poll) (boot w c)))
                    with
                    | (Return _, st') =>
                        match fault env c with
                        | Some e => (Raise e, push (ev_raise e) st')
                        | None => (Return tt, st')
                        end
                    | (Raise e, st') => (Raise e, st')
                    | (Diverge, st') => (Diverge, st')
                    end
                  else (Return tt, boot w c)).
  { unfold _handle_pcd_output, bind at 1, get_self. simpl.
    destruct (should_get_depth w); [| reflexivity].
    unfold poll, bind at 1 2, tick, emit. simpl. unfold bind at 1.
    change (mkSt w (S c) [ev_call c oak_poll])
      with (later (push (ev_call c oak_poll) (boot w c))).
    destruct (deliver (poll_src env c) _) as [[[] | e |] st'];
      try reflexivity.
    destruct (fault env c); reflexivity. }
  rewrite Heq. clear Heq.
  destruct (should_get_depth w); [| reflexivity].
  match goal with
  | |- context [deliver ?ps ?s] =>
      destruct (deliver_latest ps s) as (H1 & H2 & H3 & H4 & H5);
      destruct (deliver ps s) as [r st']
  end.
  simpl in *. subst r.
  destruct (fault env c) as [e |]; simpl; unfold calls; simpl;
    rewrite H2, H3, H4, H5; repeat split; reflexivity.
Qed.

Lemma build_prefix_grows (plan : list (nat * sdk_call)) (tr0 new : list event) :
  started tr0 = true -> calls tr0 = plan ->
  (if started (new ++ tr0)
   then firstn (List.length plan) (calls (new ++ tr0)) = plan
   else True).
Proof.
  intros Hst Hcalls.
  rewrite (started_app new tr0 Hst), calls_app, Hcalls.
  apply firstn_length_app.
Qed.

Lemma color_only_try (env : Env) (w : Worker) (c iters : nat) :
  should_get_color w = true -> should_get_depth w = false ->
  color_only_session (height w) (width w) (frame_rate w) c
    (trace (snd (_pipeline_loop_try env iters (boot w c)))).
Proof.
  destruct w as [h wd fr col dep ci dm pc mg ws]. simpl.
  intros -> ->.
  unfold _pipeline_loop_try, with_OakCamera, _add_camera_rgb_node,
    _add_depth_node, _add_pc_node, bind, finally, extcall, log, emit,
    get_self, ret, boot. simpl.
  run_build env.
  all: try reflexivity.
  run_drain env iters.
  all: match goal with
       | |- color_only_session _ _ _ _ (?a :: ?b :: ?x ++ ?t) =>
           exact (build_prefix_grows (color_only_build h wd fr c) t
                                     (a :: b :: x) eq_refl eq_refl)
       | |- color_only_session _ _ _ _ (?a :: ?x ++ ?t) =>
           exact (build_prefix_grows (color_only_build h wd fr c) t (a :: x)
                                     eq_refl eq_refl)
       | |- color_only_session _ _ _ _ (?x ++ ?t) =>
           exact (build_prefix_grows (color_only_build h wd fr c) t x
                                     eq_refl eq_refl)
       end.
Qed.

(** X12.  A worker with colour on and depth off: every session that
    reaches [oak.start] has made exactly the calls of [color_only_build]
    before: one output named "rgb", the colour camera at the frame rate,
    its preview sized (width, height) and linked to that output, and
    nothing of a depth pipeline. *)
Theorem colour_only_build_is_the_camera_alone
        (env : Env) (w : Worker) (c iters : nat) :
  if should_get_color w && negb (should_get_depth w) then
    color_only_session (height w) (width w) (frame_rate w) c
      (trace (snd (_pipeline_loop env iters (boot w c))))
  else True.
Proof.
  destruct (should_get_color w) eqn:Hc; [| exact Logic.I].
  destruct (should_get_depth w) eqn:Hd; [exact Logic.I |]. simpl.
  rewrite pipeline_loop_unfold.
  pose proof (color_only_try env w c iters Hc Hd) as H.
  destruct (_pipeline_loop_try env iters (boot w c)) as [[[] | e |] st'];
    try destruct (is_Exception e); exact H.
Qed.

(** * The sensor *)

(** ** Stripping newlines *)

Lemma lstrip_spec (s : string) :
  exists pre,
    s = String.append pre (lstrip s)
    /\ newlines_only pre = true
    /\ is_newline_char (first_char (lstrip s)) = false.
Proof.
  induction s as [| a rest IH]; simpl.
  - exists EmptyString. repeat split.
  - destruct (is_newline a) eqn:Ha.
    + destruct IH as (pre & Hs & Hpre & Hfirst).
      exists (String a pre). simpl. rewrite Ha, Hpre, <- Hs. repeat split.
      exact Hfirst.
    + exists EmptyString. simpl. rewrite Ha. repeat split.
Qed.

Lemma rstrip_spec (s : string) :
  exists post,
    s = String.append (rstrip s) post
    /\ newlines_only post = true
    /\ is_newline_char (last_char (rstrip s)) = false
    /\ (is_newline_char (first_char s) = false ->
        is_newline_char (first_char (rstrip s)) = false).
Proof.
  induction s as [| a rest IH]; simpl.
  - exists EmptyString. repeat split.
  - destruct IH as (post & Hs & Hpost & Hlast & _).
    destruct (rstrip rest) as [| b kept] eqn:Hr.
    + simpl in Hs. subst post.
      destruct (is_newline a) eqn:Ha.
      * exists (String a rest). simpl. rewrite Ha, Hpost. repeat split.
      * exists rest. simpl. rewrite Ha. repeat split; auto.
    + exists post. split; [| repeat split; auto].
      change (String a rest
              = String a (String.append (String b kept) post)).
      rewrite <- Hs. reflexivity.
Qed.

Lemma strip_spec (s : string) :
  exists pre post,
    s = String.append pre (String.append (strip s) post)
    /\ newlines_only pre = true
    /\ newlines_only post = true
    /\ is_newline_char (first_char (strip s)) = false
    /\ is_newline_char (last_char (strip s)) = false.
Proof.
  destruct (lstrip_spec s) as (pre & Hs & Hpre & Hfirst).
  destruct (rstrip_spec (lstrip s)) as (post & Hl & Hpost & Hlast & Hkeep).
  exists pre, post. unfold strip. rewrite <- Hl, <- Hs.
  repeat split; auto.
Qed.

(** ** Reading the configuration *)

(** X13.  When [get_attribute_from_config] raises.  If the attribute is
    missing it returns the default as it is, also when the default is
    [None] and no type is given.  If the attribute is present, the
    default is [None] and no type is given, it raises the exception with
    the message about [of_type].  It raises in no other way of its own:
    every other raise is the raise of [int], [list] or [dict] on the
    field. *)
Theorem attribute_lookup_raises_only_without_a_type
        (P : Protobuf) (config : ComponentConfig P) (attribute_name : string)
        (default : py_value P) (of_type : option py_type) :
  match fields config attribute_name with
  | None =>
      get_attribute_from_config config attribute_name default of_type
      = Return default
  | Some field =>
      get_attribute_from_config config attribute_name py_None None
      = Raise (Exception
                 "If default value is None, of_type argument can't be empty")
      /\ match get_attribute_from_config config attribute_name default of_type
         with
         | Raise e =>
             (default = py_None /\ of_type = None /\
              e = Exception
                    "If default value is None, of_type argument can't be empty")
             \/ int_ P (number_value P field) = Raise e
             \/ list_ P (list_value P field) = Raise e
             \/ dict_ P (struct_value P field) = Raise e
         | _ => True
         end
  end.
Proof.
  unfold get_attribute_from_config.
  destruct (fields config attribute_name) as [field |]; [| reflexivity].
  split; [reflexivity |].
  assert (Hbody : forall t,
             match
               (if py_type_eqb t t_bool then
                  Return (py_bool (bool_value P field))
                else if py_type_eqb t t_int then
                  and_then (int_ P (number_value P field))
                           (fun z => Return (py_int z))
                else if py_type_eqb t t_float then
                  Return (py_float (number_value P field))
                else if py_type_eqb t t_str then
                  Return (py_str (string_value P field))
                else if py_type_eqb t t_list then
                  and_then (list_ P (list_value P field))
                           (fun l => Return (py_list l))
                else if py_type_eqb t t_dict then
                  and_then (dict_ P (struct_value P field))
                           (fun d => Return (py_dict d))
                else Return py_None)
             with
             | Raise e =>
                 int_ P (number_value P field) = Raise e
                 \/ list_ P (list_value P field) = Raise e
                 \/ dict_ P (struct_value P field) = Raise e
             | _ => True
             end).
  { intros t. destruct t; simpl; auto.
    - destruct (int_ P (number_value P field)); simpl; auto.
    - destruct (list_ P (list_value P field)); simpl; auto.
    - destruct (dict_ P (struct_value P field)); simpl; auto. }
  destruct default as [| b | z | x | s | l | d | n].
  - destruct of_type as [t |]; simpl; [| auto].
    pose proof (Hbody t) as H.
    match goal with
    | |- match ?r with _ => _ end => destruct r; auto
    end.
  - simpl. exact Logic.I.
  - simpl. destruct (int_ P (number_value P field)); simpl; auto.
  - simpl. exact Logic.I.
  - simpl. exact Logic.I.
  - simpl. destruct (list_ P (list_value P field)); simpl; auto.
  - simpl. destruct (dict_ P (struct_value P field)); simpl; auto.
  - simpl. exact Logic.I.
Qed.

(** X14.  A default that is not [None] decides the type: whatever
    [of_type] says is ignored. *)
Theorem a_given_default_overrides_of_type
        (P : Protobuf) (config : ComponentConfig P) (attribute_name : string)
        (default : py_value P) (of_type : option py_type) :
  default <> py_None ->
  get_attribute_from_config config attribute_name default of_type
  = get_attribute_from_config config attribute_name default None.
Proof.
  intros Hd. unfold get_attribute_from_config.
  destruct (fields config attribute_name); [| reflexivity].
  destruct default; try reflexivity. contradiction.
Qed.

Lemma a_given_default_overrides_of_type_witness :
  get_attribute_from_config hostname_config "cmd"
    (@py_str text_values "ls") (Some t_int)
  = get_attribute_from_config hostname_config "cmd"
      (@py_str text_values "ls") None.
Proof.
  apply (a_given_default_overrides_of_type text_values hostname_config "cmd"
           (py_str "ls") (Some t_int)).
  discriminate.
Defined.

(** X15.  A type that is none of bool, int, float, str, list and dict:
    when the attribute is present the function falls through all its
    branches and returns [None], not the default. *)
Theorem an_unsupported_type_gives_None
        (P : Protobuf) (config : ComponentConfig P) (attribute_name : string)
        (field : Value P) (type_name : string) (of_type : option py_type) :
  fields config attribute_name = Some field ->
  get_attribute_from_config config attribute_name (py_object type_name) of_type
  = Return py_None
  /\ get_attribute_from_config config attribute_name py_None
       (Some (t_other type_name))
     = Return py_None.
Proof.
  intros Hf. unfold get_attribute_from_config. rewrite Hf.
  split; reflexivity.
Qed.

Lemma an_unsupported_type_gives_None_witness :
  get_attribute_from_config hostname_config "cmd"
    (@py_object text_values "tuple") None
  = Return py_None
  /\ get_attribute_from_config hostname_config "cmd" py_None
       (Some (t_other "tuple"))
     = Return py_None.
Proof.
  apply (an_unsupported_type_gives_None text_values hostname_config "cmd"
           "hostname -I" "tuple" None).
  reflexivity.
Defined.

(** X16.  [IPSensor.new] never raises and rejects no configuration: the
    sensor it returns has the configuration's name, and its [cmd] is the
    [string_value] of the attribute "cmd" when that is present and [None]
    when it is missing.  A later [reconfigure] keeps the name and
    replaces [cmd] by the same rule, whatever [cmd] was. *)
Theorem new_takes_cmd_from_the_configuration
        (P : Protobuf) (config config' : ComponentConfig P) :
  new config
  = Return (mkIPSensor P (config_name config)
              (Some match fields config "cmd" with
                    | Some field => py_str (string_value P field)
                    | None => py_None
                    end))
  /\ and_then (new config) (fun service => reconfigure service config')
     = Return (mkIPSensor P (config_name config)
                 (Some match fields config' "cmd" with
                       | Some field => py_str (string_value P field)
                       | None => py_None
                       end)).
Proof.
  unfold new, validate, reconfigure, get_attribute_from_config. simpl.
  destruct (fields config "cmd"); simpl;
    destruct (fields config' "cmd"); split; reflexivity.
Qed.

(** ** Reading the command's output *)

(** X17.  What [get_readings] returns when the command has run and its
    output is valid UTF-8: one entry, whose key is [cmd] followed by a
    colon and a space, and whose value is the decoded output without the
    newlines at its two ends.  The value does not begin or end with a
    newline, and the output is that value between two runs of newlines,
    so that newlines inside the output are kept. *)
Theorem readings_are_the_output_between_its_newlines
        (P : Protobuf) (rt : Runtime P) (self : IPSensor P)
        (c : py_value P) (stdout : list Byte.byte) (text : string) :
  cmd self = Some c ->
  subprocess_run rt c = Return stdout ->
  decode_utf8 rt stdout = Return text ->
  exists output pre post,
    get_readings rt self = Return [(String.append (format_ rt c) ": ", output)]
    /\ text = String.append pre (String.append output post)
    /\ newlines_only pre = true
    /\ newlines_only post = true
    /\ is_newline_char (first_char output) = false
    /\ is_newline_char (last_char output) = false.
Proof.
  intros Hcmd Hrun Hdec.
  destruct (strip_spec text) as (pre & post & Ht & Hpre & Hpost & Hf & Hl).
  exists (strip text), pre, post.
  unfold get_readings. rewrite Hcmd, Hrun. simpl. rewrite Hdec. simpl.
  repeat split; assumption.
Qed.

Lemma readings_are_the_output_between_its_newlines_witness :
  exists output pre post,
    get_readings sample_runtime
      (mkIPSensor text_values "ip" (Some (py_str "hostname -I")))
    = Return [(String.append
                 (format_ sample_runtime (@py_str text_values "hostname -I"))
                 ": ",
               output)]
    /\ String.append "10.0.0.7" (String (Ascii.ascii_of_nat 10) EmptyString)
       = String.append pre (String.append output post)
    /\ newlines_only pre = true
    /\ newlines_only post = true
    /\ is_newline_char (first_char output) = false
    /\ is_newline_char (last_char output) = false.
Proof.
  apply (readings_are_the_output_between_its_newlines
           text_values sample_runtime
           (mkIPSensor text_values "ip" (Some (py_str "hostname -I")))
           (py_str "hostname -I")
           (list_byte_of_string
              (String.append "10.0.0.7"
                 (String (Ascii.ascii_of_nat 10) EmptyString)))
           (String.append "10.0.0.7"
              (String (Ascii.ascii_of_nat 10) EmptyString)));
    reflexivity.
Defined.
